(** * Precondition validators of arm_compute/core/Validate.h

    A shallow embedding of the validation layer declared in
    [arm_compute/core/Validate.h]: the dimension comparator, the metadata
    validators over tensor operands, and the fixed-point range validator.

    Conventions of the embedding.
    - A pointer [const ITensor *] is an [option ITensor]; [None] is [nullptr].
    - The error macros are modelled with assertions enabled
      (ARM_COMPUTE_ASSERTS_ENABLED): a validator either returns, raises one
      error, or runs into undefined behaviour (a null dereference, a shift by
      an out-of-range amount).
    - [unsigned int] and [int] are 32 bits wide and [size_t] is 64 bits wide.
    - [float] is IEEE 754 binary32, modelled with the parameterised
      specification of the standard library ([SpecFloat], precision 24,
      [emax] 128). *)

From Stdlib Require Import ZArith Lia QArith Qpower.
From Stdlib.Floats Require Import SpecFloat.
From stdpp Require Import base decidable option list strings.

Local Open Scope nat_scope.

(** * Part I: the embedding *)

(** ** Outcomes of a validator *)

(** What a failing check hands to the reporter. [ARM_COMPUTE_ERROR_ON_LOC]
    has no message of its own and reports the violated condition verbatim
    (a raw failure); [ARM_COMPUTE_ERROR_ON_LOC_MSG] reports the message it
    is given. The arguments of a format string are rendered by the reporter
    and are not kept. *)
Inductive failure : Type :=
  | Condition (cond : string)
  | Message (msg : string).

(** An error: the call site the validator was given and the failure. *)
Record error : Type := mkError {
  err_function : string;
  err_file : string;
  err_line : Z;
  err_what : failure
}.

(** Behaviour the language leaves undefined. *)
Inductive undefined : Type :=
  | NullDereference
  | ShiftOutOfRange.

Inductive outcome (A : Type) : Type :=
  | Return (a : A)
  | Raise (e : error)
  | Undefined (u : undefined).

Arguments Return {A} a.
Arguments Raise {A} e.
Arguments Undefined {A} u.

#[global] Instance outcome_ret : MRet outcome := fun A a => Return a.

#[global] Instance outcome_bind : MBind outcome := fun A B k m =>
  match m with
  | Return a => k a
  | Raise e => Raise e
  | Undefined u => Undefined u
  end.

(** Modelled from the spec: the macro [ARM_COMPUTE_ERROR_ON_LOC_MSG] of
    Error.h, which is not part of the sources at hand. When the condition
    holds the reporter is called once with the call site and the message, and
    control does not come back; otherwise nothing happens. *)
Definition ARM_COMPUTE_ERROR_ON_LOC_MSG
    (cond : bool) (function file : string) (line : Z) (msg : string)
    : outcome unit :=
  if cond then Raise (mkError function file line (Message msg))
  else Return ().

(** Modelled from the spec: the macro [ARM_COMPUTE_ERROR_ON_LOC] of Error.h,
    which is not part of the sources at hand: the same with the text of the
    condition in place of a message. [cond_text] is the condition as it is
    written at the call. *)
Definition ARM_COMPUTE_ERROR_ON_LOC
    (cond : bool) (cond_text : string) (function file : string) (line : Z)
    : outcome unit :=
  if cond then Raise (mkError function file line (Condition cond_text))
  else Return ().

(** [p->...]: reading through a pointer. *)
Definition deref {A : Type} (p : option A) : outcome A :=
  match p with
  | Some a => Return a
  | None => Undefined NullDereference
  end.

(** [p == nullptr] *)
Definition is_nullptr {A : Type} (p : option A) : bool :=
  match p with
  | Some _ => false
  | None => true
  end.

(** [std::any_of] with a predicate that may itself fail: the elements are
    visited in order and the visit stops at the first one that satisfies the
    predicate, or at the first failure. *)
Fixpoint any_of {A : Type} (pred : A → outcome bool) (l : list A)
    : outcome bool :=
  match l with
  | [] => Return false
  | x :: l' => b ← pred x; if b : bool then Return true else any_of pred l'
  end.

(** [std::none_of] with a pure predicate. *)
Fixpoint none_of {A : Type} (pred : A → bool) (l : list A) : bool :=
  match l with
  | [] => true
  | x :: l' => if pred x then false else none_of pred l'
  end.

(** Modelled from the spec: [for_each] of Helpers.h, which is not part of the
    sources at hand: the function is applied to every argument of the pack,
    in order. *)
Fixpoint for_each {A : Type} (func : A → outcome unit) (args : list A)
    : outcome unit :=
  match args with
  | [] => Return ()
  | x :: args' => func x;; for_each func args'
  end.

(** ** The dimension vector and its comparator *)

(** [Dimensions<T>] stores [std::array<T, num_max_dimensions> _id]. [T] is
    [size_t] for a tensor shape and [int] for coordinates;
    [num_max_dimensions] is a compile-time constant declared in Dimensions.h.
    It is small, so the [unsigned int] loop counter of the comparator never
    wraps. *)
Record Dimensions (T : Type) (num_max_dimensions : nat) : Type := mkDimensions {
  _id : list T;
  _id_size : length _id = num_max_dimensions
}.

Arguments mkDimensions {T num_max_dimensions} _id _id_size.
Arguments _id {T num_max_dimensions} _.
Arguments _id_size {T num_max_dimensions} _.

(** [dim[i]] *)
Definition at_dim {T : Type} `{Inhabited T} {num_max_dimensions : nat}
    (dim : Dimensions T num_max_dimensions) (i : nat) : T :=
  _id dim !!! i.

(** The loop of [have_different_dimensions],
    [for(unsigned int i = upper_dim; i < num_max_dimensions; ++i)
       if(dim1[i] != dim2[i]) return true;
     return false;]
    with [fuel] bounding the number of turns. *)
Fixpoint have_different_dimensions_loop
    {T : Type} `{EqDecision T} `{Inhabited T} {num_max_dimensions : nat}
    (fuel : nat) (dim1 dim2 : Dimensions T num_max_dimensions) (i : nat)
    : bool :=
  match fuel with
  | 0 => false
  | S fuel' =>
      if decide (i < num_max_dimensions) then
        if decide (at_dim dim1 i ≠ at_dim dim2 i) then true
        else have_different_dimensions_loop fuel' dim1 dim2 (S i)
      else false
  end.

(** [detail::have_different_dimensions]; the loop needs at most
    [num_max_dimensions - upper_dim] turns. *)
Definition have_different_dimensions
    {T : Type} `{EqDecision T} `{Inhabited T} {num_max_dimensions : nat}
    (dim1 dim2 : Dimensions T num_max_dimensions) (upper_dim : nat) : bool :=
  have_different_dimensions_loop
    (num_max_dimensions - upper_dim) dim1 dim2 upper_dim.

(** ** Tensor metadata *)

(** Modelled from the spec: the enumeration [DataType] of Types.h, which is
    not part of the sources at hand. Validate.h names [UNKNOWN] and the two
    fixed-point kinds [QS8] and [QS16]; the other members are the plain
    integer and floating-point kinds. *)
Module DataType.
Inductive t : Type :=
  | UNKNOWN | U8 | S8 | QS8 | U16 | S16 | QS16 | U32 | S32 | F16 | F32.
#[global] Instance eq_dec : EqDecision t.
Proof. solve_decision. Defined.
End DataType.

(** Modelled from the spec: the enumeration [Format] of Types.h, which is not
    part of the sources at hand. Validate.h names [UNKNOWN] only. *)
Module Format.
Inductive t : Type :=
  | UNKNOWN | U8 | S16 | U16 | S32 | U32 | F16 | F32
  | UV88 | RGB888 | RGBA8888 | YUV444 | YUYV422 | NV12 | NV21 | IYUV | UYVY422.
#[global] Instance eq_dec : EqDecision t.
Proof. solve_decision. Defined.
End Format.

(** Modelled from the spec: the enumeration [Channel] of Types.h, which is
    not part of the sources at hand. Validate.h names [UNKNOWN] only. *)
Module Channel.
Inductive t : Type :=
  | UNKNOWN | C0 | C1 | C2 | C3 | R | G | B | A | Y | U | V.
#[global] Instance eq_dec : EqDecision t.
Proof. solve_decision. Defined.
End Channel.

(** [TensorShape] is [Dimensions<size_t>]. *)
Definition TensorShape (num_max_dimensions : nat) : Type :=
  Dimensions N num_max_dimensions.

(** What [ITensorInfo] lets a validator read. *)
Record ITensorInfo (num_max_dimensions : nat) : Type := mkITensorInfo {
  tensor_shape : TensorShape num_max_dimensions;
  data_type : DataType.t;
  format : Format.t;
  num_channels : N;
  fixed_point_position : Z
}.

Arguments mkITensorInfo {num_max_dimensions}.
Arguments tensor_shape {num_max_dimensions} _.
Arguments data_type {num_max_dimensions} _.
Arguments format {num_max_dimensions} _.
Arguments num_channels {num_max_dimensions} _.
Arguments fixed_point_position {num_max_dimensions} _.

(** A tensor, as far as validation goes: [info()] never returns null. *)
Record ITensor (num_max_dimensions : nat) : Type := mkITensor {
  info : ITensorInfo num_max_dimensions
}.

Arguments mkITensor {num_max_dimensions} info.
Arguments info {num_max_dimensions} _.

(** ** Metadata validators *)

Section Validators.

Context {num_max_dimensions : nat}.

Local Abbreviation tensor_ptr := (option (ITensor num_max_dimensions)).

(** [error_on_nullptr]: the lambda [is_nullptr] is applied to every pointer
    of the pack. *)
Definition error_on_nullptr {A : Type}
    (function file : string) (line : Z) (pointers : list (option A))
    : outcome unit :=
  for_each
    (fun ptr => ARM_COMPUTE_ERROR_ON_LOC (is_nullptr ptr) "ptr == nullptr"
                  function file line)
    pointers.

(** [error_on_mismatching_shapes], the overload with [upper_dim].
    [tensors_array] holds all the operands. Its [cbegin()] points at the first
    slot of the array, which is an object of the function: the iterator is
    never null, whatever pointer that slot holds. *)
Definition error_on_mismatching_shapes
    (function file : string) (line : Z) (upper_dim : nat)
    (tensor_1 tensor_2 : tensor_ptr) (tensors : list tensor_ptr)
    : outcome unit :=
  let tensors_array := tensor_1 :: tensor_2 :: tensors in
  let cbegin_is_nullptr := false in
  ARM_COMPUTE_ERROR_ON_LOC cbegin_is_nullptr
    "tensors_array.cbegin() == nullptr" function file line;;
  different ←
    any_of
      (fun tensor =>
         ARM_COMPUTE_ERROR_ON_LOC (is_nullptr tensor) "tensor == nullptr"
           function file line;;
         first ← deref (hd None tensors_array);
         t ← deref tensor;
         mret (have_different_dimensions
                 (tensor_shape (info first)) (tensor_shape (info t)) upper_dim))
      (tl tensors_array);
  ARM_COMPUTE_ERROR_ON_LOC_MSG different function file line
    "Tensors have different shapes".

(** [error_on_mismatching_shapes], the overload without [upper_dim]. *)
Definition error_on_mismatching_shapes_default
    (function file : string) (line : Z)
    (tensor_1 tensor_2 : tensor_ptr) (tensors : list tensor_ptr)
    : outcome unit :=
  error_on_mismatching_shapes function file line 0 tensor_1 tensor_2 tensors.

(** [error_on_mismatching_data_types]. The operator [||] does not evaluate
    its right operand when the left one is true. *)
Definition error_on_mismatching_data_types
    (function file : string) (line : Z)
    (tensor_1 tensor_2 : tensor_ptr) (tensors : list tensor_ptr)
    : outcome unit :=
  t1 ← deref tensor_1;
  let first_data_type := data_type (info t1) in
  let tensors_array := tensors in
  t2 ← deref tensor_2;
  different ←
    (if decide (data_type (info t2) ≠ first_data_type) then mret true
     else
       any_of
         (fun tensor =>
            t ← deref tensor;
            mret (bool_decide (data_type (info t) ≠ first_data_type)))
         tensors_array);
  ARM_COMPUTE_ERROR_ON_LOC_MSG different function file line
    "Tensors have different data types".

(** [error_on_mismatching_fixed_point] *)
Definition error_on_mismatching_fixed_point
    (function file : string) (line : Z)
    (tensor_1 tensor_2 : tensor_ptr) (tensors : list tensor_ptr)
    : outcome unit :=
  t1 ← deref tensor_1;
  let first_data_type := data_type (info t1) in
  let first_fixed_point_position := fixed_point_position (info t1) in
  if bool_decide (first_data_type ≠ DataType.QS8)
     && bool_decide (first_data_type ≠ DataType.QS16)
  then mret ()
  else
    let tensors_array := tensor_2 :: tensors in
    different_type ←
      any_of
        (fun tensor =>
           t ← deref tensor;
           mret (bool_decide (data_type (info t) ≠ first_data_type)))
        tensors_array;
    ARM_COMPUTE_ERROR_ON_LOC_MSG different_type function file line
      "Tensors have different fixed point data types";;
    different_position ←
      any_of
        (fun tensor =>
           t ← deref tensor;
           mret (bool_decide
                   (fixed_point_position (info t) ≠ first_fixed_point_position)))
        tensors_array;
    ARM_COMPUTE_ERROR_ON_LOC_MSG different_position function file line
      "Tensors have different fixed point positions".

(** [error_on_mismatching_fixed_point_position]: the lambda reads the position
    of [tensor_1] anew for every operand. *)
Definition error_on_mismatching_fixed_point_position
    (function file : string) (line : Z)
    (tensor_1 tensor_2 : tensor_ptr) (tensors : list tensor_ptr)
    : outcome unit :=
  let tensors_array := tensor_2 :: tensors in
  different ←
    any_of
      (fun tensor =>
         t ← deref tensor;
         t1 ← deref tensor_1;
         mret (bool_decide
                 (fixed_point_position (info t) ≠ fixed_point_position (info t1))))
      tensors_array;
  ARM_COMPUTE_ERROR_ON_LOC_MSG different function file line
    "Tensors have different fixed-point positions".

(** [error_on_format_not_in], at an object that is a tensor. *)
Definition error_on_format_not_in
    (function file : string) (line : Z)
    (object : tensor_ptr) (format0 : Format.t) (formats : list Format.t)
    : outcome unit :=
  ARM_COMPUTE_ERROR_ON_LOC (is_nullptr object) "object == nullptr"
    function file line;;
  o ← deref object;
  let object_format := format (info o) in
  ARM_COMPUTE_ERROR_ON_LOC (bool_decide (object_format = Format.UNKNOWN))
    "object_format == Format::UNKNOWN" function file line;;
  let formats_array := formats in
  ARM_COMPUTE_ERROR_ON_LOC_MSG
    (bool_decide (object_format ≠ format0)
     && none_of (fun f => bool_decide (f = object_format)) formats_array)
    function file line "Format %s not supported by this kernel".

(** [error_on_data_type_not_in] *)
Definition error_on_data_type_not_in
    (function file : string) (line : Z)
    (tensor : tensor_ptr) (dt : DataType.t) (dts : list DataType.t)
    : outcome unit :=
  ARM_COMPUTE_ERROR_ON_LOC (is_nullptr tensor) "tensor == nullptr"
    function file line;;
  t ← deref tensor;
  let tensor_dt := data_type (info t) in
  ARM_COMPUTE_ERROR_ON_LOC (bool_decide (tensor_dt = DataType.UNKNOWN))
    "tensor_dt == DataType::UNKNOWN" function file line;;
  let dts_array := dts in
  ARM_COMPUTE_ERROR_ON_LOC_MSG
    (bool_decide (tensor_dt ≠ dt)
     && none_of (fun d => bool_decide (d = tensor_dt)) dts_array)
    function file line "ITensor data type %s not supported by this kernel".

(** [error_on_channel_not_in], at the channel type. *)
Definition error_on_channel_not_in
    (function file : string) (line : Z)
    (cn channel : Channel.t) (channels : list Channel.t)
    : outcome unit :=
  ARM_COMPUTE_ERROR_ON_LOC (bool_decide (cn = Channel.UNKNOWN))
    "cn == Channel::UNKNOWN" function file line;;
  let channels_array := channels in
  ARM_COMPUTE_ERROR_ON_LOC
    (bool_decide (channel ≠ cn)
     && none_of (fun f => bool_decide (f = cn)) channels_array)
    "channel != cn && std::none_of(channels_array.begin(), channels_array.end(), [&](const T & f) { return f == cn; })"
    function file line.

End Validators.

(** ** The fixed-point range validator *)

(** [float] is IEEE 754 binary32: 24 bits of precision, exponents below 128.
    Operations round to nearest, ties to even. *)
Definition float_prec : Z := 24.
Definition float_emax : Z := 128.

(** Conversion of an integer to [float]. *)
Definition float_of_Z (n : Z) : spec_float :=
  binary_normalize float_prec float_emax n 0 false.

(** [x / y] on [float] *)
Definition float_div (x y : spec_float) : spec_float :=
  SFdiv float_prec float_emax x y.

(** [x > y] on [float]; false when either side is not a number. *)
Definition float_gt (x y : spec_float) : bool := SFltb y x.

(** Arithmetic on [size_t] wraps around at [2^64]. *)
Definition size_t_wrap (n : Z) : Z := (n mod 2 ^ 64)%Z.

(** [sizeof(unsigned int)] *)
Definition sizeof_unsigned_int : Z := 4.

(** [a >> amount] on [unsigned int]: undefined unless the amount is less than
    the width of the type. *)
Definition shift_right_unsigned_int (a amount : Z) : outcome Z :=
  if decide (0 ≤ amount < 32)%Z then Return (Z.shiftr a amount)
  else Undefined ShiftOutOfRange.

(** Two's complement wrap-around into [int]. *)
Definition int_wrap (n : Z) : Z := ((n + 2 ^ 31) mod 2 ^ 32 - 2 ^ 31)%Z.

(** [1 << amount] on [int]: undefined unless the amount is non-negative and
    less than the width of the type. *)
Definition shift_left_one_int (amount : Z) : outcome Z :=
  if decide (0 ≤ amount < 32)%Z then Return (int_wrap (Z.shiftl 1 amount))
  else Undefined ShiftOutOfRange.

Section FixedPointRange.

Context {num_max_dimensions : nat}.

(** [element_size_from_data_type] of Utils.h, which is not part of the sources
    at hand: the size in bytes of an element of the data type, a [size_t]. *)
Variable element_size_from_data_type : DataType.t → Z.

(** The local [q_max_range] of
    [error_on_value_not_representable_in_fixed_point]:
    [0xFFFFFFFFu >> (((sizeof(unsigned int) - element_size_from_data_type(dt)) * 8) + 1)],
    the amount being computed on [size_t]. *)
Definition q_max_range (dt : DataType.t) : outcome Z :=
  shift_right_unsigned_int 0xFFFFFFFF%Z
    (size_t_wrap
       (size_t_wrap
          (size_t_wrap (sizeof_unsigned_int - element_size_from_data_type dt)
           * 8)
        + 1)).

(** The local [max_range]:
    [q_max_range / (static_cast<float>(1 << fixed_point_position))]; the
    unsigned numerator is converted to [float] for the division. *)
Definition max_range (dt : DataType.t) (fixed_point_position : Z)
    : outcome spec_float :=
  q ← q_max_range dt;
  one_shifted ← shift_left_one_int fixed_point_position;
  mret (float_div (float_of_Z q) (float_of_Z one_shifted)).

(** [error_on_value_not_representable_in_fixed_point] *)
Definition error_on_value_not_representable_in_fixed_point
    (function file : string) (line : Z)
    (value : spec_float) (tensor : option (ITensor num_max_dimensions))
    : outcome unit :=
  t ← deref tensor;
  let fixed_point_position := fixed_point_position (info t) in
  let dt := data_type (info t) in
  max_range ← max_range dt fixed_point_position;
  ARM_COMPUTE_ERROR_ON_LOC_MSG (float_gt value max_range) function file line
    "Value %f is not representable in %s with fixed-point position %d".

End FixedPointRange.

(** ** Reading a [float] as a rational *)

(** The rational a finite [float] stands for; zero for the others. *)
Definition SF2Q (x : spec_float) : Q :=
  match x with
  | S754_finite s m e => (inject_Z (cond_Zopp s (Zpos m)) * 2 ^ e)%Q
  | _ => 0%Q
  end.

(** [x] is a number greater than the rational [bound]; plus infinity is
    greater than every rational, minus infinity and NaN are not. *)
Definition float_exceeds (x : spec_float) (bound : Q) : Prop :=
  match x with
  | S754_nan => False
  | S754_infinity s => s = false
  | _ => (bound < SF2Q x)%Q
  end.

(** The bound the specification gives for an element of [element_bytes]
    bytes: [((1 << (8*element_bytes - 1)) - 1) / 2^fixed_point_position]. *)
Definition representable_bound (element_bytes fixed_point_position : Z) : Q :=
  (inject_Z (Z.shiftl 1 (8 * element_bytes - 1) - 1)
   / inject_Z (2 ^ fixed_point_position))%Q.

(** A finite [float] counted in units of [2^-149], the smallest positive
    [float]; zero for the others. *)
Definition float_scaled (x : spec_float) : Z :=
  match x with
  | S754_finite s m e => (cond_Zopp s (Zpos m) * 2 ^ (e + 149))%Z
  | _ => 0%Z
  end.

(** [x] is a [float] of the format: its mantissa and exponent are the
    canonical ones. *)
Definition float_valid (x : spec_float) : bool :=
  valid_binary float_prec float_emax x.

(** [x] is a finite number, zero included. *)
Definition float_is_finite (x : spec_float) : bool :=
  match x with
  | S754_finite _ _ _ | S754_zero _ => true
  | _ => false
  end.

(** [x] is a finite number above zero. *)
Definition float_is_positive (x : spec_float) : bool :=
  match x with
  | S754_finite false _ _ => true
  | _ => false
  end.

(** [x] is below zero: a negative finite number or minus infinity. *)
Definition float_is_negative (x : spec_float) : bool :=
  match x with
  | S754_finite true _ _ | S754_infinity true => true
  | _ => false
  end.

(** The literals [7.9f] and [8.0f]: the [float] nearest to 79/10, and 8. *)
Definition float_7_9 : spec_float := float_div (float_of_Z 79) (float_of_Z 10).
Definition float_8_0 : spec_float := float_of_Z 8.

(** [max_range] for an element of [element_bytes] bytes. *)
Definition max_range_at (element_bytes fixed_point_position : Z)
    : outcome spec_float :=
  max_range (λ _, element_bytes) DataType.UNKNOWN fixed_point_position.

(** The computed [max_range] is a positive [float]. *)
Definition max_range_is_positive (element_bytes fixed_point_position : Z)
    : bool :=
  match max_range_at element_bytes fixed_point_position with
  | Return mr => float_valid mr && float_is_positive mr
  | _ => false
  end.

(** The computed [max_range] is a positive [float] that stands for
    [((1 << (8*element_bytes - 1)) - 1) / 2^fixed_point_position] exactly. *)
Definition max_range_is_exact (element_bytes fixed_point_position : Z)
    : bool :=
  match max_range_at element_bytes fixed_point_position with
  | Return mr =>
      float_valid mr && float_is_positive mr
      && (float_scaled mr * 2 ^ fixed_point_position
          =? (Z.shiftl 1 (8 * element_bytes - 1) - 1) * 2 ^ 149)%Z
  | _ => false
  end.

(** ** Further validators *)

(** The functor [detail::compare_dimension]: it keeps the object to compare
    against and the call site, and its call operator compares every axis. *)
Definition compare_dimension
    {T : Type} `{EqDecision T} `{Inhabited T} {num_max_dimensions : nat}
    (_dim : Dimensions T num_max_dimensions)
    (_function _file : string) (_line : Z)
    (dim : Dimensions T num_max_dimensions) : outcome unit :=
  ARM_COMPUTE_ERROR_ON_LOC_MSG (have_different_dimensions _dim dim 0)
    _function _file _line "Objects have different dimensions".

(** [error_on_mismatching_dimensions] *)
Definition error_on_mismatching_dimensions
    {T : Type} `{EqDecision T} `{Inhabited T} {num_max_dimensions : nat}
    (function file : string) (line : Z)
    (dim1 dim2 : Dimensions T num_max_dimensions)
    (dims : list (Dimensions T num_max_dimensions)) : outcome unit :=
  for_each (compare_dimension dim1 function file line) (dim2 :: dims).

(** [error_on_data_type_channel_not_in]: the data-type check, then the
    number of channels of the tensor against the required one. *)
Definition error_on_data_type_channel_not_in {num_max_dimensions : nat}
    (function file : string) (line : Z)
    (tensor : option (ITensor num_max_dimensions)) (num_channels' : N)
    (dt : DataType.t) (dts : list DataType.t) : outcome unit :=
  error_on_data_type_not_in function file line tensor dt dts;;
  t ← deref tensor;
  let tensor_nc := num_channels (info t) in
  ARM_COMPUTE_ERROR_ON_LOC_MSG (bool_decide (tensor_nc ≠ num_channels'))
    function file line
    "Number of channels %d. Required number of channels %d".

(** The validator came to an end the language defines: it returned or it
    raised an error. *)
Definition is_defined {A : Type} (r : outcome A) : Prop :=
  match r with
  | Undefined _ => False
  | _ => True
  end.

(** ** Sample operands *)

(** The library is built with six dimensions at most. *)
Definition MAX_DIMS : nat := 6.

Definition shape_2x3 : TensorShape MAX_DIMS :=
  mkDimensions [2; 3; 1; 1; 1; 1]%N eq_refl.

Definition shape_2x4 : TensorShape MAX_DIMS :=
  mkDimensions [2; 4; 1; 1; 1; 1]%N eq_refl.

Definition shape_5x3 : TensorShape MAX_DIMS :=
  mkDimensions [5; 3; 1; 1; 1; 1]%N eq_refl.

(** Fixed-point tensors of 8-bit elements with four fractional bits. *)
Definition tensor_qs8_2x3 : ITensor MAX_DIMS :=
  mkITensor (mkITensorInfo shape_2x3 DataType.QS8 Format.U8 1 4).

Definition tensor_qs8_2x4 : ITensor MAX_DIMS :=
  mkITensor (mkITensorInfo shape_2x4 DataType.QS8 Format.U8 1 4).

Definition tensor_qs8_5x3 : ITensor MAX_DIMS :=
  mkITensor (mkITensorInfo shape_5x3 DataType.QS8 Format.U8 1 4).

(** The same with five fractional bits. *)
Definition tensor_qs8_2x3_q5 : ITensor MAX_DIMS :=
  mkITensor (mkITensorInfo shape_2x3 DataType.QS8 Format.U8 1 5).

(** A tensor of single-precision elements. *)
Definition tensor_f32_2x3 : ITensor MAX_DIMS :=
  mkITensor (mkITensorInfo shape_2x3 DataType.F32 Format.F32 1 0).

(** A tensor whose data type and format are not set. *)
Definition tensor_unknown : ITensor MAX_DIMS :=
  mkITensor
    (mkITensorInfo shape_2x3 DataType.UNKNOWN Format.UNKNOWN 1 0).

(** An element size table for the samples: one byte for the 8-bit kinds, two
    for the 16-bit kinds, four for the 32-bit kinds, and nothing for
    [UNKNOWN]. *)
Definition element_size_sample (dt : DataType.t) : Z :=
  match dt with
  | DataType.U8 | DataType.S8 | DataType.QS8 => 1
  | DataType.U16 | DataType.S16 | DataType.QS16 | DataType.F16 => 2
  | DataType.U32 | DataType.S32 | DataType.F32 => 4
  | DataType.UNKNOWN => 0
  end.

(** A fixed-point tensor whose position is past the width of an [int]. *)
Definition tensor_qs8_2x3_q32 : ITensor MAX_DIMS :=
  mkITensor (mkITensorInfo shape_2x3 DataType.QS8 Format.U8 1 32).

(** The literal [3.0f]. *)
Definition float_3_0 : spec_float := float_of_Z 3.

(** The call site of the samples. *)
Definition sample_function : string := "configure".
Definition sample_file : string := "Kernel.cpp".
Definition sample_line : Z := 42.

(** * Part II: properties *)

(** ** The dimension comparator *)

Section DimensionComparator.

Context {T : Type} `{EqDecision T} `{Inhabited T} {num_max_dimensions : nat}.

Implicit Types dim a b : Dimensions T num_max_dimensions.

(** The loop guard is what stops the loop: from index [i] on, any amount of
    fuel of at least [num_max_dimensions - i] gives the same answer. *)
Lemma have_different_dimensions_loop_fuel fuel dim1 dim2 i :
  num_max_dimensions - i ≤ fuel →
  have_different_dimensions_loop fuel dim1 dim2 i
  = have_different_dimensions_loop (num_max_dimensions - i) dim1 dim2 i.
Proof.
  revert i. induction fuel as [|fuel IH]; intros i Hfuel.
  - replace (num_max_dimensions - i) with 0 by lia. reflexivity.
  - simpl. destruct (decide (i < num_max_dimensions)) as [Hi|Hi].
    + replace (num_max_dimensions - i)
        with (S (num_max_dimensions - S i)) by lia.
      simpl. destruct (decide (i < num_max_dimensions)); [|lia].
      destruct (decide (at_dim dim1 i ≠ at_dim dim2 i)); [reflexivity|].
      apply IH. lia.
    + replace (num_max_dimensions - i) with 0 by lia. reflexivity.
Qed.

(** One turn of the loop, as the source writes it. *)
Lemma have_different_dimensions_unfold dim1 dim2 i :
  have_different_dimensions dim1 dim2 i
  = if decide (i < num_max_dimensions) then
      if decide (at_dim dim1 i ≠ at_dim dim2 i) then true
      else have_different_dimensions dim1 dim2 (S i)
    else false.
Proof.
  unfold have_different_dimensions.
  destruct (decide (i < num_max_dimensions)) as [Hi|Hi].
  - replace (num_max_dimensions - i)
      with (S (num_max_dimensions - S i)) by lia.
    simpl. destruct (decide (i < num_max_dimensions)); [|lia].
    reflexivity.
  - replace (num_max_dimensions - i) with 0 by lia. reflexivity.
Qed.

Lemma have_different_dimensions_true dim1 dim2 upper_dim :
  have_different_dimensions dim1 dim2 upper_dim = true ↔
  ∃ i, upper_dim ≤ i < num_max_dimensions ∧ at_dim dim1 i ≠ at_dim dim2 i.
Proof.
  remember (num_max_dimensions - upper_dim) as n eqn:Hn.
  revert upper_dim Hn. induction n as [|n IH]; intros u Hn.
  - rewrite have_different_dimensions_unfold.
    destruct (decide (u < num_max_dimensions)); [lia|].
    split; [discriminate|]. intros (i & Hi & _). lia.
  - rewrite have_different_dimensions_unfold.
    destruct (decide (u < num_max_dimensions)); [|lia].
    destruct (decide (at_dim dim1 u ≠ at_dim dim2 u)) as [Hd|Hd].
    + split; [|reflexivity]. intros _. exists u. split; [lia|assumption].
    + rewrite (IH (S u)) by lia. split.
      * intros (i & Hi & Hne). exists i. split; [lia|assumption].
      * intros (i & Hi & Hne). exists i. split; [|assumption].
        destruct (decide (i = u)) as [->|]; [contradiction|lia].
Qed.

Lemma have_different_dimensions_false dim1 dim2 upper_dim :
  have_different_dimensions dim1 dim2 upper_dim = false ↔
  ∀ i, upper_dim ≤ i < num_max_dimensions → at_dim dim1 i = at_dim dim2 i.
Proof.
  rewrite <- not_true_iff_false, have_different_dimensions_true. split.
  - intros Hno i Hi.
    destruct (decide (at_dim dim1 i = at_dim dim2 i)) as [|Hne]; [assumption|].
    exfalso. apply Hno. eauto.
  - intros Hall (i & Hi & Hne). apply Hne, Hall, Hi.
Qed.

(** With [upper_dim] at or past the last axis there is nothing to compare. *)
Lemma have_different_dimensions_past_end dim1 dim2 upper_dim :
  num_max_dimensions ≤ upper_dim →
  have_different_dimensions dim1 dim2 upper_dim = false.
Proof.
  intros Hu. apply have_different_dimensions_false. intros i Hi. lia.
Qed.

(** C6. [have_different_dimensions dim1 dim2 upper_dim] is true exactly when
    some axis [i] with [upper_dim <= i < num_max_dimensions] has
    [dim1[i] != dim2[i]]. The axes before [upper_dim] are ignored: changing
    them in either vector does not change the answer. The comparator is a
    function of its three arguments and of nothing else, and it returns a
    boolean only, so a call has no effect besides its result. *)
Theorem have_different_dimensions_spec dim1 dim2 upper_dim :
  (have_different_dimensions dim1 dim2 upper_dim = true ↔
   ∃ i, upper_dim ≤ i < num_max_dimensions ∧ at_dim dim1 i ≠ at_dim dim2 i)
  ∧ (∀ dim1' dim2' : Dimensions T num_max_dimensions,
       (∀ i, upper_dim ≤ i < num_max_dimensions →
             at_dim dim1' i = at_dim dim1 i ∧ at_dim dim2' i = at_dim dim2 i) →
       have_different_dimensions dim1' dim2' upper_dim
       = have_different_dimensions dim1 dim2 upper_dim).
Proof.
  split; [apply have_different_dimensions_true|].
  intros dim1' dim2' Hsame.
  destruct (have_different_dimensions dim1 dim2 upper_dim) eqn:Hd.
  - apply have_different_dimensions_true in Hd as (i & Hi & Hne).
    apply have_different_dimensions_true. exists i. split; [assumption|].
    destruct (Hsame i Hi) as [-> ->]. assumption.
  - apply have_different_dimensions_false. intros i Hi.
    destruct (Hsame i Hi) as [-> ->].
    revert i Hi. apply have_different_dimensions_false. assumption.
Qed.

(** C7. The comparator is reflexive and symmetric: for every vector [a] and
    every [u], [have_different_dimensions a a u] is false, and for all
    vectors [a], [b] and every [u], [have_different_dimensions a b u] equals
    [have_different_dimensions b a u]. *)
Theorem have_different_dimensions_refl_sym :
  (∀ a u, have_different_dimensions a a u = false)
  ∧ (∀ a b u, have_different_dimensions a b u = have_different_dimensions b a u).
Proof.
  split.
  - intros a u. apply have_different_dimensions_false. reflexivity.
  - intros a b u.
    destruct (have_different_dimensions b a u) eqn:Hd.
    + apply have_different_dimensions_true in Hd as (i & Hi & Hne).
      apply have_different_dimensions_true. exists i. split; [assumption|].
      intros Heq. apply Hne. symmetry. assumption.
    + apply have_different_dimensions_false. intros i Hi. symmetry.
      revert i Hi. apply have_different_dimensions_false. assumption.
Qed.

End DimensionComparator.

(** ** Visiting operand lists *)

Lemma bind_Return {A B : Type} (a : A) (k : A → outcome B) :
  (Return a ≫= k) = k a.
Proof. reflexivity. Qed.

(** A predicate that succeeds on every element makes [any_of] an ordinary
    search. *)
Lemma any_of_fmap_Return {A B : Type} (f : A → B)
    (pred : B → outcome bool) (p : A → bool) (l : list A) :
  (∀ x, x ∈ l → pred (f x) = Return (p x)) →
  any_of pred (f <$> l) = Return (existsb p l).
Proof.
  induction l as [|x l IH]; intros Hpred; [reflexivity|].
  simpl. rewrite (Hpred x) by apply list_elem_of_here.
  rewrite bind_Return. destruct (p x); [reflexivity|].
  apply IH. intros y Hy. apply Hpred. apply list_elem_of_further, Hy.
Qed.

(** Reading present operands through their pointers. *)
Lemma any_of_present {A : Type} (p : A → bool) (l : list A) :
  any_of (λ ptr, x ← deref ptr; mret (p x)) (Some <$> l)
  = Return (existsb p l).
Proof. apply any_of_fmap_Return. intros x _. reflexivity. Qed.

(** [any_of] stops at a failing element when it has found nothing before. *)
Lemma any_of_stops {A B : Type} (f : A → B)
    (pred : B → outcome bool) (before : list A) (x : B) (after : list B) :
  (∀ y, y ∈ before → pred (f y) = Return false) →
  (∀ b, pred x ≠ Return b) →
  any_of pred ((f <$> before) ++ x :: after) = pred x.
Proof.
  intros Hbefore Hx.
  induction before as [|y before IH]; simpl.
  - destruct (pred x) as [b| |]; [destruct (Hx b); reflexivity| |];
      reflexivity.
  - rewrite (Hbefore y) by apply list_elem_of_here. rewrite bind_Return.
    apply IH. intros z Hz. apply Hbefore, list_elem_of_further, Hz.
Qed.

(** [any_of] answers true at the first element that satisfies the predicate
    and does not visit the elements after it. *)
Lemma any_of_finds {A B : Type} (f : A → B)
    (pred : B → outcome bool) (before : list A) (x : B) (after : list B) :
  (∀ y, y ∈ before → pred (f y) = Return false) →
  pred x = Return true →
  any_of pred ((f <$> before) ++ x :: after) = Return true.
Proof.
  intros Hbefore Hx.
  induction before as [|y before IH]; simpl.
  - rewrite Hx. reflexivity.
  - rewrite (Hbefore y) by apply list_elem_of_here. rewrite bind_Return.
    apply IH. intros z Hz. apply Hbefore, list_elem_of_further, Hz.
Qed.

(** A predicate that raises nothing makes [any_of] raise nothing. *)
Lemma any_of_no_Raise {A : Type} (pred : A → outcome bool) (l : list A) :
  (∀ x e, pred x ≠ Raise e) → ∀ e, any_of pred l ≠ Raise e.
Proof.
  intros Hpred e. induction l as [|x l IH]; [discriminate|].
  simpl. destruct (pred x) as [[|]|e'|u] eqn:Hx; cbn;
    [discriminate|assumption| |discriminate].
  destruct (Hpred x e'). assumption.
Qed.

Lemma existsb_Exists {A : Type} (p : A → bool) (l : list A) :
  existsb p l = true ↔ Exists (λ x, p x = true) l.
Proof.
  rewrite existsb_exists, Exists_exists. split.
  - intros (x & Hin & Hp). exists x. split; [|assumption].
    apply list_elem_of_In. assumption.
  - intros (x & Hin & Hp). exists x. split; [|assumption].
    apply list_elem_of_In. assumption.
Qed.

Lemma none_of_true {A : Type} `{EqDecision A} (x : A) (l : list A) :
  none_of (λ y, bool_decide (y = x)) l = true ↔ x ∉ l.
Proof.
  induction l as [|y l IH]; simpl.
  - split; [|reflexivity]. intros _. apply not_elem_of_nil.
  - rewrite not_elem_of_cons. case_bool_decide as Hy.
    + split; [discriminate|]. intros [Hne _]. congruence.
    + rewrite IH. split; [|tauto]. intros Hnot. split; [congruence|assumption].
Qed.

(** ** Metadata validators *)

Section Validators.

Context {num_max_dimensions : nat}.

(** The call site handed to the validator. *)
Variables (function file : string) (line : Z).

Implicit Types t : ITensor num_max_dimensions.
Implicit Types ts : list (ITensor num_max_dimensions).
Implicit Types tensor : option (ITensor num_max_dimensions).
Implicit Types tensors : list (option (ITensor num_max_dimensions)).

(** On operands that are all present, the shape check is a search for an
    operand whose shape differs from the first one's. *)
Lemma error_on_mismatching_shapes_present upper_dim t1 t2 ts :
  error_on_mismatching_shapes function file line upper_dim
    (Some t1) (Some t2) (Some <$> ts)
  = if existsb
         (λ t, have_different_dimensions
                 (tensor_shape (info t1)) (tensor_shape (info t)) upper_dim)
         (t2 :: ts)
    then Raise (mkError function file line
                  (Message "Tensors have different shapes"))
    else Return ().
Proof.
  unfold error_on_mismatching_shapes.
  cbn [hd tl ARM_COMPUTE_ERROR_ON_LOC]. rewrite bind_Return.
  change (Some t2 :: (Some <$> ts)) with (Some <$> (t2 :: ts)).
  erewrite any_of_fmap_Return; [|intros t _; reflexivity].
  rewrite bind_Return. unfold ARM_COMPUTE_ERROR_ON_LOC_MSG.
  reflexivity.
Qed.

(** C4. The shape check compares the shape of the first operand with the
    shape of every other operand by [have_different_dimensions] from the
    [upper_dim] it is given; the overload without [upper_dim] passes 0. In
    particular two tensors whose shapes agree on every axis from [upper_dim]
    to [num_max_dimensions] pass the check, for any [upper_dim]. *)
Theorem error_on_mismatching_shapes_spec :
  (∀ tensor_1 tensor_2 tensors,
     error_on_mismatching_shapes_default function file line
       tensor_1 tensor_2 tensors
     = error_on_mismatching_shapes function file line 0
         tensor_1 tensor_2 tensors)
  ∧ (∀ upper_dim t1 t2 ts,
       error_on_mismatching_shapes function file line upper_dim
         (Some t1) (Some t2) (Some <$> ts)
       = if existsb
              (λ t, have_different_dimensions
                      (tensor_shape (info t1)) (tensor_shape (info t)) upper_dim)
              (t2 :: ts)
         then Raise (mkError function file line
                  (Message "Tensors have different shapes"))
         else Return ())
  ∧ (∀ upper_dim t1 t2,
       (∀ i, upper_dim ≤ i < num_max_dimensions →
             at_dim (tensor_shape (info t1)) i
             = at_dim (tensor_shape (info t2)) i) →
       error_on_mismatching_shapes function file line upper_dim
         (Some t1) (Some t2) []
       = Return ()).
Proof.
  split; [reflexivity|]. split.
  - apply error_on_mismatching_shapes_present.
  - intros upper_dim t1 t2 Hsame.
    change (@nil (option (ITensor num_max_dimensions)))
      with (Some <$> (@nil (ITensor num_max_dimensions))).
    rewrite error_on_mismatching_shapes_present.
    simpl. rewrite (proj2 (have_different_dimensions_false _ _ _) Hsame).
    reflexivity.
Qed.

(** C10. With [upper_dim] at or past [num_max_dimensions] the comparator
    returns false for every pair of vectors, so the shape check passes for
    all tensors, whatever their shapes. *)
Theorem have_different_dimensions_empty_range upper_dim :
  num_max_dimensions ≤ upper_dim →
  (∀ (T : Type) `{EqDecision T} `{Inhabited T}
     (dim1 dim2 : Dimensions T num_max_dimensions),
     have_different_dimensions dim1 dim2 upper_dim = false)
  ∧ (∀ t1 t2 ts,
       error_on_mismatching_shapes function file line upper_dim
         (Some t1) (Some t2) (Some <$> ts)
       = Return ()).
Proof.
  intros Hu. split.
  - intros T ? ? dim1 dim2. apply have_different_dimensions_past_end, Hu.
  - intros t1 t2 ts. rewrite error_on_mismatching_shapes_present.
    replace (existsb _ _) with false; [reflexivity|].
    symmetry. apply not_true_iff_false. rewrite existsb_Exists, Exists_exists.
    intros (t & _ & Hd).
    rewrite have_different_dimensions_past_end in Hd by exact Hu.
    discriminate.
Qed.

(** [error_on_nullptr] raises at the first null pointer of the pack. *)
Lemma error_on_nullptr_existsb {A : Type} (pointers : list (option A)) :
  error_on_nullptr function file line pointers
  = if existsb is_nullptr pointers
    then Raise (mkError function file line (Condition "ptr == nullptr"))
    else Return ().
Proof.
  unfold error_on_nullptr.
  induction pointers as [|ptr pointers IH]; [reflexivity|].
  simpl. destruct ptr as [a|]; simpl; [apply IH|reflexivity].
Qed.

(** The shape check dereferences a null first operand: the test on
    [tensors_array.cbegin()] looks at the iterator, not at the pointer it
    points to. *)
Lemma error_on_mismatching_shapes_null_first upper_dim t2 tensors :
  error_on_mismatching_shapes function file line upper_dim
    None (Some t2) tensors
  = Undefined NullDereference.
Proof. reflexivity. Qed.

(** C1, as amended. Null pointers are reported by the check that is made for
    them, [error_on_nullptr], which raises the raw failure on the condition
    [ptr == nullptr] exactly when some pointer of its list is null. The shape
    check tests each operand after the first for null just before it compares
    that operand: when the first operand is present and the operands before
    the first null one are present and agree with the first operand's shape
    from [upper_dim], it raises the raw failure on [tensor == nullptr], which
    is not the mismatch failure. An operand of another shape that comes
    before is reported as a mismatch instead: when the first operand is
    present and the operands before the first one that differs from it from
    [upper_dim] are present and agree with it, the check raises the mismatch
    failure, whatever the operands after it are, null pointers included. The
    data-type check makes no null test: the only failure it ever raises is
    the data-type mismatch. *)
Theorem null_operand_reporting :
  (∀ (A : Type) (pointers : list (option A)),
     error_on_nullptr function file line pointers
     = if existsb is_nullptr pointers
       then Raise (mkError function file line (Condition "ptr == nullptr"))
       else Return ())
  ∧ (∀ upper_dim t1 ts_before tensors_after tensor_2 tensors,
       tensor_2 :: tensors = (Some <$> ts_before) ++ None :: tensors_after →
       Forall
         (λ t, have_different_dimensions
                 (tensor_shape (info t1)) (tensor_shape (info t)) upper_dim
               = false)
         ts_before →
       error_on_mismatching_shapes function file line upper_dim
         (Some t1) tensor_2 tensors
       = Raise (mkError function file line (Condition "tensor == nullptr")))
  ∧ (∀ upper_dim t1 ts_before t tensors_after tensor_2 tensors,
       tensor_2 :: tensors = (Some <$> ts_before) ++ Some t :: tensors_after →
       Forall
         (λ t', have_different_dimensions
                  (tensor_shape (info t1)) (tensor_shape (info t')) upper_dim
                = false)
         ts_before →
       have_different_dimensions
         (tensor_shape (info t1)) (tensor_shape (info t)) upper_dim
       = true →
       error_on_mismatching_shapes function file line upper_dim
         (Some t1) tensor_2 tensors
       = Raise (mkError function file line
                  (Message "Tensors have different shapes")))
  ∧ mkError function file line (Condition "tensor == nullptr")
    ≠ mkError function file line (Message "Tensors have different shapes")
  ∧ (∀ tensor_1 tensor_2 tensors e,
       error_on_mismatching_data_types function file line
         tensor_1 tensor_2 tensors
       = Raise e →
       e = mkError function file line
             (Message "Tensors have different data types")).
Proof.
  split; [intros A pointers; apply error_on_nullptr_existsb|].
  split; [|split; [|split; [discriminate|]]].
  - intros upper_dim t1 ts_before tensors_after tensor_2 tensors Heq Hsame.
    unfold error_on_mismatching_shapes.
    cbn [hd tl ARM_COMPUTE_ERROR_ON_LOC]. rewrite bind_Return, Heq.
    rewrite any_of_stops; [reflexivity| |intros b; discriminate].
    intros t Ht. rewrite Forall_forall in Hsame.
    cbn. rewrite (Hsame t Ht). reflexivity.
  - intros upper_dim t1 ts_before t tensors_after tensor_2 tensors
      Heq Hsame Hdiffers.
    unfold error_on_mismatching_shapes.
    cbn [hd tl ARM_COMPUTE_ERROR_ON_LOC]. rewrite bind_Return, Heq.
    rewrite any_of_finds; [reflexivity| |cbn; rewrite Hdiffers; reflexivity].
    intros t' Ht'. rewrite Forall_forall in Hsame.
    cbn. rewrite (Hsame t' Ht'). reflexivity.
  - intros tensor_1 tensor_2 tensors e.
    unfold error_on_mismatching_data_types.
    destruct tensor_1 as [t1|]; [|discriminate].
    destruct tensor_2 as [t2|]; [|discriminate].
    cbn [deref]. rewrite !bind_Return.
    destruct (decide (data_type (info t2) ≠ data_type (info t1)));
      [cbn; congruence|].
    match goal with
    | |- context [any_of ?pred ?l] =>
        pose proof (any_of_no_Raise pred l) as Hno;
        destruct (any_of pred l) as [[|]|e'|u]
    end; cbn; try congruence.
    destruct (Hno ltac:(intros [t|] e0; discriminate) e'). reflexivity.
Qed.

(** On operands that are all present, the fixed-point check is two searches
    in a row. *)
Lemma error_on_mismatching_fixed_point_present t1 t2 ts :
  error_on_mismatching_fixed_point function file line
    (Some t1) (Some t2) (Some <$> ts)
  = if bool_decide (data_type (info t1) ≠ DataType.QS8)
       && bool_decide (data_type (info t1) ≠ DataType.QS16)
    then Return ()
    else if existsb
              (λ t, bool_decide (data_type (info t) ≠ data_type (info t1)))
              (t2 :: ts)
    then Raise (mkError function file line
                  (Message "Tensors have different fixed point data types"))
    else if existsb
              (λ t, bool_decide (fixed_point_position (info t)
                                 ≠ fixed_point_position (info t1)))
              (t2 :: ts)
    then Raise (mkError function file line
                  (Message "Tensors have different fixed point positions"))
    else Return ().
Proof.
  unfold error_on_mismatching_fixed_point.
  cbn [deref]. rewrite bind_Return.
  destruct (bool_decide (data_type (info t1) ≠ DataType.QS8)
            && bool_decide (data_type (info t1) ≠ DataType.QS16));
    [reflexivity|].
  change (Some t2 :: (Some <$> ts)) with (Some <$> (t2 :: ts)).
  rewrite !any_of_present, bind_Return.
  unfold ARM_COMPUTE_ERROR_ON_LOC_MSG.
  destruct (existsb
              (λ t, bool_decide (data_type (info t) ≠ data_type (info t1)))
              (t2 :: ts));
    [reflexivity|].
  rewrite !bind_Return. reflexivity.
Qed.

(** C3. When the data type of the first operand is neither [QS8] nor [QS16]
    the fixed-point check returns without failure, whatever the other
    operands are: they are not looked at, null pointers included. Otherwise,
    on present operands, it fails exactly when some other operand differs
    from the first in data type or in fixed-point position, and returns
    exactly when none does. *)
Theorem error_on_mismatching_fixed_point_spec :
  (∀ t1 tensor_2 tensors,
     data_type (info t1) ≠ DataType.QS8 →
     data_type (info t1) ≠ DataType.QS16 →
     error_on_mismatching_fixed_point function file line
       (Some t1) tensor_2 tensors
     = Return ())
  ∧ (∀ t1 t2 ts,
       data_type (info t1) = DataType.QS8
       ∨ data_type (info t1) = DataType.QS16 →
       ((∃ e, error_on_mismatching_fixed_point function file line
                (Some t1) (Some t2) (Some <$> ts) = Raise e)
        ↔ Exists
            (λ t, data_type (info t) ≠ data_type (info t1)
                  ∨ fixed_point_position (info t)
                    ≠ fixed_point_position (info t1))
            (t2 :: ts))
       ∧ (error_on_mismatching_fixed_point function file line
            (Some t1) (Some t2) (Some <$> ts) = Return ()
          ↔ Forall
              (λ t, data_type (info t) = data_type (info t1)
                    ∧ fixed_point_position (info t)
                      = fixed_point_position (info t1))
              (t2 :: ts))).
Proof.
  split.
  - intros t1 tensor_2 tensors H8 H16.
    unfold error_on_mismatching_fixed_point. cbn [deref].
    rewrite bind_Return, !bool_decide_eq_true_2 by assumption. reflexivity.
  - intros t1 t2 ts Hq.
    rewrite error_on_mismatching_fixed_point_present.
    replace (bool_decide (data_type (info t1) ≠ DataType.QS8)
             && bool_decide (data_type (info t1) ≠ DataType.QS16))
      with false
      by (destruct Hq as [-> | ->]; reflexivity).
    set (p_type := λ t : ITensor num_max_dimensions,
           bool_decide (data_type (info t) ≠ data_type (info t1))).
    set (p_pos := λ t : ITensor num_max_dimensions,
           bool_decide (fixed_point_position (info t)
                        ≠ fixed_point_position (info t1))).
    assert (Hex : Exists
              (λ t, data_type (info t) ≠ data_type (info t1)
                    ∨ fixed_point_position (info t)
                      ≠ fixed_point_position (info t1))
              (t2 :: ts)
            ↔ existsb p_type (t2 :: ts) = true
              ∨ existsb p_pos (t2 :: ts) = true).
    { split.
      - intros Hsome. apply Exists_exists in Hsome as (t & Hin & [Hd|Hp]);
          [left|right]; apply existsb_Exists, Exists_exists; exists t;
          (split; [assumption|]); apply bool_decide_eq_true; assumption.
      - intros [Hb|Hb]; apply existsb_Exists, Exists_exists in Hb
          as (t & Hin & Hb); apply bool_decide_eq_true in Hb;
          apply Exists_exists; exists t; (split; [assumption|]);
          [left|right]; assumption. }
    assert (Hall : Forall
              (λ t, data_type (info t) = data_type (info t1)
                    ∧ fixed_point_position (info t)
                      = fixed_point_position (info t1))
              (t2 :: ts)
            ↔ ¬ Exists
                (λ t, data_type (info t) ≠ data_type (info t1)
                      ∨ fixed_point_position (info t)
                        ≠ fixed_point_position (info t1))
                (t2 :: ts)).
    { rewrite Forall_forall, Exists_exists. split.
      - intros Hevery (t & Hin & Hor).
        destruct (Hevery t Hin) as [Hd Hp]. destruct Hor; contradiction.
      - intros Hno t Hin.
        destruct (decide (data_type (info t) = data_type (info t1)));
          destruct (decide (fixed_point_position (info t)
                            = fixed_point_position (info t1)));
          try (split; assumption); exfalso; apply Hno; exists t;
          (split; [assumption|]); auto. }
    rewrite Hall, Hex.
    destruct (existsb p_type (t2 :: ts)); [|destruct (existsb p_pos (t2 :: ts))].
    + split; [split; eauto|]. split; [discriminate|]. intros Hn. destruct Hn. auto.
    + split; [split; eauto|]. split; [discriminate|]. intros Hn. destruct Hn. auto.
    + split.
      * split; [intros [e He]; discriminate|]. intros [Hf|Hf]; discriminate.
      * split; [|reflexivity]. intros _ [Hf|Hf]; discriminate.
Qed.

(** On a present tensor, the data-type check is the test for [UNKNOWN]
    followed by the search of the allowed data types. *)
Lemma error_on_data_type_not_in_present t dt dts :
  error_on_data_type_not_in function file line (Some t) dt dts
  = if bool_decide (data_type (info t) = DataType.UNKNOWN)
    then Raise (mkError function file line
                  (Condition "tensor_dt == DataType::UNKNOWN"))
    else if bool_decide (data_type (info t) ≠ dt)
            && none_of (λ d, bool_decide (d = data_type (info t))) dts
    then Raise (mkError function file line
                  (Message "ITensor data type %s not supported by this kernel"))
    else Return ().
Proof.
  unfold error_on_data_type_not_in.
  cbn [is_nullptr deref ARM_COMPUTE_ERROR_ON_LOC]. rewrite !bind_Return.
  destruct (bool_decide (data_type (info t) = DataType.UNKNOWN));
    reflexivity.
Qed.

(** C5. The data-type check fails when the data type of the tensor is
    [UNKNOWN]. Otherwise it fails exactly when the data type is neither the
    first candidate nor a member of the further allowed data types; it passes
    when the data type is the first candidate; and when the data type matches
    no candidate the failure raised is the data-type failure of this check,
    which is neither the failure on a null tensor nor the failure of the
    range check. *)
Theorem error_on_data_type_not_in_spec t dt dts :
  (data_type (info t) = DataType.UNKNOWN →
   error_on_data_type_not_in function file line (Some t) dt dts
   = Raise (mkError function file line
              (Condition "tensor_dt == DataType::UNKNOWN")))
  ∧ (data_type (info t) ≠ DataType.UNKNOWN →
     ((∃ e, error_on_data_type_not_in function file line (Some t) dt dts
            = Raise e)
      ↔ data_type (info t) ≠ dt ∧ data_type (info t) ∉ dts)
     ∧ (data_type (info t) = dt →
        error_on_data_type_not_in function file line (Some t) dt dts
        = Return ())
     ∧ (data_type (info t) ≠ dt → data_type (info t) ∉ dts →
        error_on_data_type_not_in function file line (Some t) dt dts
        = Raise (mkError function file line
                   (Message
                      "ITensor data type %s not supported by this kernel"))
        ∧ Message "ITensor data type %s not supported by this kernel"
          ≠ Condition "tensor == nullptr"
        ∧ Message "ITensor data type %s not supported by this kernel"
          ≠ Message
              "Value %f is not representable in %s with fixed-point position %d")).
Proof.
  rewrite error_on_data_type_not_in_present. split.
  - intros Hu.
    rewrite (bool_decide_eq_true_2 (data_type (info t) = DataType.UNKNOWN))
      by assumption.
    reflexivity.
  - intros Hu.
    rewrite (bool_decide_eq_false_2 (data_type (info t) = DataType.UNKNOWN))
      by assumption.
    destruct (none_of (λ d, bool_decide (d = data_type (info t))) dts)
      eqn:Hnone.
    + apply none_of_true in Hnone.
      case_bool_decide as Hdt; simpl.
      * split; [split; [intros _; tauto|eauto]|]. split; [congruence|].
        intros _ _. split; [reflexivity|]. split; discriminate.
      * split; [split; [intros [e He]; discriminate|tauto]|].
        split; [reflexivity|]. intros Hne. contradiction.
    + assert (Hin : data_type (info t) ∈ dts).
      { destruct (decide (data_type (info t) ∈ dts)) as [|Hnot];
          [assumption|].
        apply none_of_true in Hnot. congruence. }
      rewrite andb_false_r.
      split; [split; [intros [e He]; discriminate|tauto]|].
      split; [reflexivity|]. intros _ Hnot. contradiction.
Qed.

(** C9. [UNKNOWN] is rejected before the allowed values are looked at: an
    object whose format is [UNKNOWN], a tensor whose data type is [UNKNOWN]
    and the channel [UNKNOWN] fail their check for every first candidate and
    every list of further candidates, also when these contain [UNKNOWN]. *)
Theorem unknown_always_rejected :
  (∀ t format0 formats,
     format (info t) = Format.UNKNOWN →
     error_on_format_not_in function file line (Some t) format0 formats
     = Raise (mkError function file line
                (Condition "object_format == Format::UNKNOWN")))
  ∧ (∀ t dt dts,
       data_type (info t) = DataType.UNKNOWN →
       error_on_data_type_not_in function file line (Some t) dt dts
       = Raise (mkError function file line
                  (Condition "tensor_dt == DataType::UNKNOWN")))
  ∧ (∀ channel channels,
       error_on_channel_not_in function file line
         Channel.UNKNOWN channel channels
       = Raise (mkError function file line
                  (Condition "cn == Channel::UNKNOWN"))).
Proof.
  split; [|split].
  - intros t format0 formats Hu. unfold error_on_format_not_in.
    cbn [is_nullptr deref ARM_COMPUTE_ERROR_ON_LOC]. rewrite !bind_Return.
    rewrite (bool_decide_eq_true_2 (format (info t) = Format.UNKNOWN))
      by assumption.
    reflexivity.
  - intros t dt dts Hu. rewrite error_on_data_type_not_in_present.
    rewrite (bool_decide_eq_true_2 (data_type (info t) = DataType.UNKNOWN))
      by assumption.
    reflexivity.
  - intros channel channels. reflexivity.
Qed.

End Validators.

(** ** Floats as rationals *)

Lemma digits2_pos_bounds (m : positive) :
  (2 ^ (Z.pos (digits2_pos m) - 1) ≤ Z.pos m < 2 ^ Z.pos (digits2_pos m))%Z.
Proof.
  induction m as [m IH|m IH|]; cbn [digits2_pos].
  - rewrite Pos2Z.inj_succ.
    replace (Z.succ (Z.pos (digits2_pos m)) - 1)%Z
      with (Z.succ (Z.pos (digits2_pos m) - 1)) by lia.
    rewrite !Z.pow_succ_r by lia. lia.
  - rewrite Pos2Z.inj_succ.
    replace (Z.succ (Z.pos (digits2_pos m)) - 1)%Z
      with (Z.succ (Z.pos (digits2_pos m) - 1)) by lia.
    rewrite !Z.pow_succ_r by lia. lia.
  - simpl. lia.
Qed.

(** What the format asks of a mantissa and an exponent: the exponent is at
    least -149 and at most 104, the mantissa has at most 24 bits, and exactly
    24 bits above the least exponent. *)
Lemma bounded_inv (m : positive) (e : Z) :
  bounded float_prec float_emax m e = true →
  (-149 ≤ e ≤ 104)%Z ∧ (Z.pos m < 2 ^ 24)%Z
  ∧ ((-149 < e)%Z → (2 ^ 23 ≤ Z.pos m)%Z).
Proof.
  unfold bounded, canonical_mantissa, fexp, emin, float_prec, float_emax.
  intros Hb. apply andb_prop in Hb as [Hc He].
  apply Z.eqb_eq in Hc. apply Z.leb_le in He.
  pose proof (digits2_pos_bounds m) as [Hlo Hhi].
  assert (Hd : (Z.pos (digits2_pos m) ≤ 24)%Z) by lia.
  split; [lia|]. split.
  - eapply Z.lt_le_trans; [exact Hhi|].
    apply Z.pow_le_mono_r; lia.
  - intros Hnormal.
    replace (Z.pos (digits2_pos m)) with 24%Z in Hlo by lia. exact Hlo.
Qed.

(** Among the numbers of the format, a smaller exponent means a smaller
    magnitude. *)
Lemma bounded_exponent_lt (m1 m2 : positive) (e1 e2 : Z) :
  bounded float_prec float_emax m1 e1 = true →
  bounded float_prec float_emax m2 e2 = true →
  (e1 < e2)%Z →
  (Z.pos m1 * 2 ^ (e1 + 149) < Z.pos m2 * 2 ^ (e2 + 149))%Z.
Proof.
  intros H1 H2 Hlt.
  apply bounded_inv in H1 as (He1 & Hm1 & _).
  apply bounded_inv in H2 as (He2 & _ & Hm2).
  specialize (Hm2 ltac:(lia)).
  assert (Hp1 : (0 < 2 ^ (e1 + 149))%Z) by (apply Z.pow_pos_nonneg; lia).
  assert (Hp2 : (0 < 2 ^ (e2 + 149))%Z) by (apply Z.pow_pos_nonneg; lia).
  apply Z.lt_le_trans with (2 ^ 24 * 2 ^ (e1 + 149))%Z.
  - apply Z.mul_lt_mono_pos_r; assumption.
  - apply Z.le_trans with (2 ^ 23 * 2 ^ (e2 + 149))%Z.
    + rewrite <- !Z.pow_add_r by lia. apply Z.pow_le_mono_r; lia.
    + apply Z.mul_le_mono_pos_r; assumption.
Qed.

(** The comparison of the format orders its numbers as the integers that
    count them in units of [2^-149]. *)
Lemma SFcompare_scaled (x y : spec_float) :
  float_valid x = true → float_valid y = true →
  float_is_finite x = true → float_is_finite y = true →
  SFcompare x y = Some (float_scaled x ?= float_scaled y)%Z.
Proof.
  intros Hvx Hvy Hfx Hfy.
  destruct x as [sx|sx| |sx mx ex]; try discriminate;
    destruct y as [sy|sy| |sy my ey]; try discriminate;
    cbn [SFcompare float_scaled].
  - reflexivity.
  - apply bounded_inv in Hvy as (Hey & _ & _).
    assert (0 < 2 ^ (ey + 149))%Z by (apply Z.pow_pos_nonneg; lia).
    f_equal. symmetry. destruct sy; cbn [cond_Zopp].
    + apply Z.compare_gt_iff. nia.
    + apply Z.compare_lt_iff. nia.
  - apply bounded_inv in Hvx as (Hex & _ & _).
    assert (0 < 2 ^ (ex + 149))%Z by (apply Z.pow_pos_nonneg; lia).
    f_equal. symmetry. destruct sx; cbn [cond_Zopp].
    + apply Z.compare_lt_iff. nia.
    + apply Z.compare_gt_iff. nia.
  - cbn [float_valid valid_binary] in Hvx, Hvy.
    pose proof (bounded_inv _ _ Hvx) as (Hex & _ & _).
    pose proof (bounded_inv _ _ Hvy) as (Hey & _ & _).
    assert (Hpx : (0 < 2 ^ (ex + 149))%Z) by (apply Z.pow_pos_nonneg; lia).
    assert (Hpy : (0 < 2 ^ (ey + 149))%Z) by (apply Z.pow_pos_nonneg; lia).
    f_equal. symmetry.
    destruct sx, sy; cbn [cond_Zopp].
    + destruct (Z.compare_spec ex ey) as [Heq|Hlt|Hgt].
      * subst ey. rewrite Pos.compare_cont_spec. cbn [Pos.switch_Eq].
        rewrite <- Zmult_compare_compat_r by lia.
        rewrite Z.compare_opp. cbn [Z.compare].
        rewrite (Pos.compare_antisym mx my).
        destruct (mx ?= my)%positive; reflexivity.
      * apply Z.compare_gt_iff.
        pose proof (bounded_exponent_lt _ _ _ _ Hvx Hvy Hlt). lia.
      * apply Z.compare_lt_iff.
        pose proof (bounded_exponent_lt _ _ _ _ Hvy Hvx Hgt). lia.
    + apply Z.compare_lt_iff. nia.
    + apply Z.compare_gt_iff. nia.
    + destruct (Z.compare_spec ex ey) as [Heq|Hlt|Hgt].
      * subst ey. rewrite Pos.compare_cont_spec. cbn [Pos.switch_Eq].
        rewrite <- Zmult_compare_compat_r by lia. cbn [Z.compare].
        destruct (mx ?= my)%positive; reflexivity.
      * apply Z.compare_lt_iff.
        exact (bounded_exponent_lt _ _ _ _ Hvx Hvy Hlt).
      * apply Z.compare_gt_iff.
        pose proof (bounded_exponent_lt _ _ _ _ Hvy Hvx Hgt). lia.
Qed.

Lemma two_pow_149_pos : (0 < 2 ^ 149)%Q.
Proof. apply Qpower_0_lt. reflexivity. Qed.

(** A [float] of the format, times [2^149], is its count of units. *)
Lemma SF2Q_scaled (x : spec_float) :
  float_valid x = true →
  (SF2Q x * 2 ^ 149 == inject_Z (float_scaled x))%Q.
Proof.
  intros Hv. destruct x as [s|s| |s m e]; cbn [SF2Q float_scaled];
    try (rewrite Qmult_0_l; reflexivity).
  apply bounded_inv in Hv as (He & _ & _).
  rewrite inject_Z_mult, Zpower_Qpower by lia.
  rewrite Qpower_plus by discriminate.
  rewrite Qmult_assoc. reflexivity.
Qed.

Lemma SF2Q_lt_scaled (x y : spec_float) :
  float_valid x = true → float_valid y = true →
  (SF2Q x < SF2Q y)%Q ↔ (float_scaled x < float_scaled y)%Z.
Proof.
  intros Hx Hy.
  rewrite <- (Qmult_lt_r _ _ (2 ^ 149)) by apply two_pow_149_pos.
  rewrite !SF2Q_scaled by assumption.
  rewrite Zlt_Qlt. reflexivity.
Qed.

(** The comparison [value > max_range] of the validator, read on the
    rationals. *)
Lemma float_gt_exceeds (value max_range : spec_float) (bound : Q) :
  float_valid value = true →
  float_valid max_range = true →
  float_is_finite max_range = true →
  (SF2Q max_range == bound)%Q →
  float_gt value max_range = true ↔ float_exceeds value bound.
Proof.
  intros Hv Hm Hf Hb. unfold float_gt, SFltb.
  destruct value as [s|s| |s m e].
  - rewrite SFcompare_scaled by (assumption || reflexivity).
    cbn [float_exceeds]. rewrite <- Hb, SF2Q_lt_scaled by assumption.
    rewrite <- Z.compare_lt_iff.
    destruct (float_scaled max_range ?= float_scaled (S754_zero s))%Z;
      split; congruence.
  - destruct max_range as [s'|s'| |s' m' e']; try discriminate;
      destruct s; cbn; split; congruence.
  - destruct max_range as [s'|s'| |s' m' e']; try discriminate;
      cbn; split; (discriminate || contradiction).
  - rewrite SFcompare_scaled by (assumption || reflexivity).
    cbn [float_exceeds]. rewrite <- Hb, SF2Q_lt_scaled by assumption.
    rewrite <- Z.compare_lt_iff.
    destruct (float_scaled max_range ?= float_scaled (S754_finite s m e))%Z;
      split; congruence.
Qed.

(** Swapping the sides of a comparison reverses its answer. *)
Lemma SFcompare_antisym (x y : spec_float) :
  SFcompare y x = option_map CompOpp (SFcompare x y).
Proof.
  destruct x as [sx|sx| |sx mx ex], y as [sy|sy| |sy my ey];
    try reflexivity;
    try (destruct sx; reflexivity);
    try (destruct sy; reflexivity);
    try (destruct sx, sy; reflexivity).
  cbn [SFcompare option_map]. f_equal.
  pose proof (Pos.compare_cont_antisym mx my Eq) as Hm.
  cbn [CompOpp] in Hm.
  destruct sx, sy; try reflexivity;
    rewrite (Z.compare_antisym ex ey), <- Hm;
    destruct (ex ?= ey)%Z; cbn [CompOpp];
    rewrite ?CompOpp_involutive; reflexivity.
Qed.

Lemma SFcompare_refl_finite (s : bool) (m : positive) (e : Z) :
  SFcompare (S754_finite s m e) (S754_finite s m e) = Some Eq.
Proof.
  cbn [SFcompare]. rewrite Z.compare_refl, Pos.compare_cont_refl.
  destruct s; reflexivity.
Qed.

(** ** The fixed-point range validator *)

(** The computed bound, for every element size below four bytes and every
    position from 0 to 30, by evaluation. *)
Lemma max_range_is_exact_table :
  forallb
    (λ element_bytes,
       forallb (max_range_is_exact element_bytes) (seqZ 0 31))
    (seqZ 1 3)
  = true.
Proof. vm_compute. reflexivity. Qed.

Lemma max_range_is_positive_table :
  forallb
    (λ element_bytes,
       forallb (max_range_is_positive element_bytes) (seqZ 0 31))
    (seqZ 1 4)
  = true.
Proof. vm_compute. reflexivity. Qed.

Lemma max_range_exact (element_bytes position : Z) :
  (1 ≤ element_bytes ≤ 3)%Z → (0 ≤ position ≤ 30)%Z →
  max_range_is_exact element_bytes position = true.
Proof.
  intros He Hp. pose proof max_range_is_exact_table as Htable.
  rewrite forallb_forall in Htable.
  assert (Hrow : forallb (max_range_is_exact element_bytes) (seqZ 0 31) = true).
  { apply Htable, list_elem_of_In, elem_of_seqZ. lia. }
  rewrite forallb_forall in Hrow.
  apply Hrow, list_elem_of_In, elem_of_seqZ. lia.
Qed.

Lemma max_range_positive (element_bytes position : Z) :
  (1 ≤ element_bytes ≤ 4)%Z → (0 ≤ position ≤ 30)%Z →
  max_range_is_positive element_bytes position = true.
Proof.
  intros He Hp. pose proof max_range_is_positive_table as Htable.
  rewrite forallb_forall in Htable.
  assert (Hrow : forallb (max_range_is_positive element_bytes) (seqZ 0 31) = true).
  { apply Htable, list_elem_of_In, elem_of_seqZ. lia. }
  rewrite forallb_forall in Hrow.
  apply Hrow, list_elem_of_In, elem_of_seqZ. lia.
Qed.

(** The integer bound, for the element sizes a 32-bit word can hold. *)
Lemma q_max_range_value (element_bytes : Z) :
  (1 ≤ element_bytes ≤ 4)%Z →
  q_max_range (λ _, element_bytes) DataType.UNKNOWN
  = Return (Z.shiftl 1 (8 * element_bytes - 1) - 1)%Z.
Proof.
  intros He.
  assert (Hcases : element_bytes = 1%Z ∨ element_bytes = 2%Z
                   ∨ element_bytes = 3%Z ∨ element_bytes = 4%Z) by lia.
  destruct Hcases as [-> | [-> | [-> | ->]]]; reflexivity.
Qed.

(** [1 << position] is [2^position] when it fits an [int]. *)
Lemma shift_left_one_int_value (position : Z) :
  (0 ≤ position ≤ 30)%Z →
  shift_left_one_int position = Return (2 ^ position)%Z.
Proof.
  intros Hp. unfold shift_left_one_int.
  destruct (decide (0 ≤ position < 32)%Z) as [_|Hno]; [|lia].
  f_equal. unfold int_wrap. rewrite Z.shiftl_1_l.
  assert (0 < 2 ^ position ≤ 2 ^ 30)%Z.
  { split; [apply Z.pow_pos_nonneg; lia|apply Z.pow_le_mono_r; lia]. }
  rewrite Z.mod_small; lia.
Qed.

(** The bound of the validator is its formula evaluated on [float]. *)
Lemma max_range_at_value (element_bytes position : Z) :
  (1 ≤ element_bytes ≤ 4)%Z → (0 ≤ position ≤ 30)%Z →
  max_range_at element_bytes position
  = Return
      (float_div
         (float_of_Z (Z.shiftl 1 (8 * element_bytes - 1) - 1))
         (float_of_Z (2 ^ position))).
Proof.
  intros He Hp. unfold max_range_at, max_range.
  rewrite (q_max_range_value element_bytes He), bind_Return.
  rewrite (shift_left_one_int_value position Hp), bind_Return.
  reflexivity.
Qed.

(** An exact [max_range] stands for the bound of the specification. *)
Lemma max_range_exact_bound (element_bytes position : Z) :
  (0 ≤ position)%Z →
  max_range_is_exact element_bytes position = true →
  ∃ mr, max_range_at element_bytes position = Return mr
        ∧ float_valid mr = true
        ∧ float_is_positive mr = true
        ∧ (SF2Q mr == representable_bound element_bytes position)%Q.
Proof.
  intros Hp. unfold max_range_is_exact.
  destruct (max_range_at element_bytes position) as [mr| |];
    try discriminate.
  intros Hexact. apply andb_prop in Hexact as [Hexact Heq].
  apply andb_prop in Hexact as [Hvalid Hpos]. apply Z.eqb_eq in Heq.
  exists mr. repeat split; try assumption.
  unfold representable_bound.
  set (bound_num := (Z.shiftl 1 (8 * element_bytes - 1) - 1)%Z) in *.
  assert (Hpow : (0 < 2 ^ position)%Z) by (apply Z.pow_pos_nonneg; lia).
  assert (Hq : ¬ (inject_Z (2 ^ position) == 0)%Q).
  { intros H0. apply (Qlt_irrefl 0). rewrite <- H0 at 2.
    change 0%Q with (inject_Z 0). rewrite <- Zlt_Qlt. exact Hpow. }
  apply (Qmult_inj_r _ _ (2 ^ 149)).
  { intros H0. apply (Qlt_irrefl 0). rewrite <- H0 at 2.
    apply two_pow_149_pos. }
  rewrite SF2Q_scaled by assumption.
  apply (Qmult_inj_r _ _ (inject_Z (2 ^ position))); [exact Hq|].
  rewrite <- inject_Z_mult, Heq, inject_Z_mult.
  rewrite Zpower_Qpower by lia.
  change (inject_Z 2) with 2%Q.
  field. exact Hq.
Qed.

(** For a four-byte element the integer bound [2^31 - 1] does not fit the 24
    bits of a [float]: the conversion rounds it to [2^31]. *)
Lemma max_range_four_bytes_rounds :
  max_range_at 4 0 = Return (S754_finite false 8388608 8)
  ∧ (SF2Q (S754_finite false 8388608 8) == 2147483648)%Q.
Proof. split; reflexivity. Qed.

Section FixedPointRange.

Context {num_max_dimensions : nat}.

Variable element_size_from_data_type : DataType.t → Z.

(** The call site handed to the validator. *)
Variables (function file : string) (line : Z).

Implicit Types t : ITensor num_max_dimensions.

(** The validator on a present tensor: the bound, then the comparison. *)
Lemma error_on_value_not_representable_present value t mr :
  max_range_at (element_size_from_data_type (data_type (info t)))
    (fixed_point_position (info t))
  = Return mr →
  error_on_value_not_representable_in_fixed_point
    element_size_from_data_type function file line value (Some t)
  = if float_gt value mr
    then Raise (mkError function file line
                  (Message
                     "Value %f is not representable in %s with fixed-point position %d"))
    else Return ().
Proof.
  intros Hmr. unfold error_on_value_not_representable_in_fixed_point.
  cbn [deref]. rewrite bind_Return.
  change (max_range element_size_from_data_type (data_type (info t))
            (fixed_point_position (info t)))
    with (max_range_at (element_size_from_data_type (data_type (info t)))
            (fixed_point_position (info t))).
  rewrite Hmr, bind_Return. reflexivity.
Qed.

(** C2. The validator computes the integer bound
    [(1 << (8*element_bytes - 1)) - 1] from the byte width of the data type
    of the tensor, divides it by [2^fixed_point_position] on [float], and
    fails if and only if the value is greater than the quotient; this holds
    for every element size from one to four bytes and every fixed-point
    position from 0 to 30. For elements narrower than four bytes (the
    fixed-point kinds have one and two) the quotient is
    [((1 << (8*element_bytes - 1)) - 1) / 2^fixed_point_position] exactly, so
    the validator fails if and only if the value exceeds that rational bound.
    For a one-byte element and position 4 the bound is 127/16 = 7.9375: the
    value 7.9 passes and the value 8.0 fails. *)
Theorem error_on_value_not_representable_in_fixed_point_spec :
  (∀ t value,
     (1 ≤ element_size_from_data_type (data_type (info t)) ≤ 4)%Z →
     (0 ≤ fixed_point_position (info t) ≤ 30)%Z →
     q_max_range element_size_from_data_type (data_type (info t))
     = Return
         (Z.shiftl 1
            (8 * element_size_from_data_type (data_type (info t)) - 1) - 1)%Z
     ∧ max_range element_size_from_data_type (data_type (info t))
         (fixed_point_position (info t))
       = Return
           (float_div
              (float_of_Z
                 (Z.shiftl 1
                    (8 * element_size_from_data_type (data_type (info t)) - 1)
                  - 1))
              (float_of_Z (2 ^ fixed_point_position (info t))))
     ∧ error_on_value_not_representable_in_fixed_point
         element_size_from_data_type function file line value (Some t)
       = if float_gt value
              (float_div
                 (float_of_Z
                    (Z.shiftl 1
                       (8 * element_size_from_data_type (data_type (info t))
                        - 1)
                     - 1))
                 (float_of_Z (2 ^ fixed_point_position (info t))))
         then Raise (mkError function file line
                       (Message
                          "Value %f is not representable in %s with fixed-point position %d"))
         else Return ())
  ∧ (∀ t value,
       (1 ≤ element_size_from_data_type (data_type (info t)) ≤ 3)%Z →
       (0 ≤ fixed_point_position (info t) ≤ 30)%Z →
       float_valid value = true →
       (∃ mr,
          max_range element_size_from_data_type (data_type (info t))
            (fixed_point_position (info t))
          = Return mr
          ∧ float_is_finite mr = true
          ∧ (SF2Q mr
             == representable_bound
                  (element_size_from_data_type (data_type (info t)))
                  (fixed_point_position (info t)))%Q)
       ∧ (error_on_value_not_representable_in_fixed_point
            element_size_from_data_type function file line value (Some t)
          = Raise (mkError function file line
                     (Message
                        "Value %f is not representable in %s with fixed-point position %d"))
          ↔ float_exceeds value
              (representable_bound
                 (element_size_from_data_type (data_type (info t)))
                 (fixed_point_position (info t))))
       ∧ (error_on_value_not_representable_in_fixed_point
            element_size_from_data_type function file line value (Some t)
          = Return ()
          ↔ ¬ float_exceeds value
                (representable_bound
                   (element_size_from_data_type (data_type (info t)))
                   (fixed_point_position (info t)))))
  ∧ (∀ t,
       element_size_from_data_type (data_type (info t)) = 1%Z →
       fixed_point_position (info t) = 4%Z →
       (representable_bound 1 4 == 127 # 16)%Q
       ∧ (127 # 16 == 7.9375)%Q
       ∧ error_on_value_not_representable_in_fixed_point
           element_size_from_data_type function file line float_7_9 (Some t)
         = Return ()
       ∧ error_on_value_not_representable_in_fixed_point
           element_size_from_data_type function file line float_8_0 (Some t)
         = Raise (mkError function file line
                    (Message
                       "Value %f is not representable in %s with fixed-point position %d"))).
Proof.
  split; [|split].
  - intros t value He Hp.
    pose proof (max_range_at_value _ _ He Hp) as Hmr.
    split; [apply (q_max_range_value _ He)|]. split; [exact Hmr|].
    apply (error_on_value_not_representable_present value t _ Hmr).
  - intros t value He Hp Hv.
    set (element_bytes := element_size_from_data_type (data_type (info t)))
      in *.
    set (position := fixed_point_position (info t)) in *.
    destruct (max_range_exact_bound element_bytes position)
      as (mr & Hmr & Hvalid & Hpos & Hbound);
      [lia|apply max_range_exact; assumption|].
    assert (Hfin : float_is_finite mr = true)
      by (destruct mr as [| | |[|] ? ?]; try discriminate; reflexivity).
    split; [exists mr; repeat split; assumption|].
    rewrite (error_on_value_not_representable_present value t mr Hmr).
    rewrite <- (float_gt_exceeds value mr _ Hv Hvalid Hfin Hbound).
    destruct (float_gt value mr); split; split; congruence.
  - intros t He Hp. split; [reflexivity|]. split; [reflexivity|].
    unfold error_on_value_not_representable_in_fixed_point, max_range,
      q_max_range.
    cbn [deref]. rewrite !bind_Return, He, Hp. split; reflexivity.
Qed.

(** C8. The validator rejects only values above the bound it computes. For
    a tensor whose elements have one to four bytes and whose fixed-point
    position is between 0 and 30 the computed bound is a positive [float],
    and: every value that is less than or equal to it passes, the bound
    itself passes, and every negative value passes, whatever its magnitude.
    The comparison is on the signed value: a value that is rejected passes
    once negated. *)
Theorem error_on_value_not_representable_in_fixed_point_signed t :
  (1 ≤ element_size_from_data_type (data_type (info t)) ≤ 4)%Z →
  (0 ≤ fixed_point_position (info t) ≤ 30)%Z →
  ∃ mr,
    max_range element_size_from_data_type (data_type (info t))
      (fixed_point_position (info t))
    = Return mr
    ∧ float_is_positive mr = true
    ∧ (∀ value,
         SFleb value mr = true →
         error_on_value_not_representable_in_fixed_point
           element_size_from_data_type function file line value (Some t)
         = Return ())
    ∧ (∀ value,
         float_valid value = true → float_is_finite value = true →
         (SF2Q value <= SF2Q mr)%Q →
         error_on_value_not_representable_in_fixed_point
           element_size_from_data_type function file line value (Some t)
         = Return ())
    ∧ error_on_value_not_representable_in_fixed_point
        element_size_from_data_type function file line mr (Some t)
      = Return ()
    ∧ (∀ value,
         float_is_negative value = true →
         error_on_value_not_representable_in_fixed_point
           element_size_from_data_type function file line value (Some t)
         = Return ())
    ∧ (∀ value e,
         error_on_value_not_representable_in_fixed_point
           element_size_from_data_type function file line value (Some t)
         = Raise e →
         error_on_value_not_representable_in_fixed_point
           element_size_from_data_type function file line (SFopp value)
           (Some t)
         = Return ()).
Proof.
  intros He Hp.
  pose proof (max_range_positive _ _ He Hp) as Hpositive.
  unfold max_range_is_positive in Hpositive.
  destruct (max_range_at (element_size_from_data_type (data_type (info t)))
              (fixed_point_position (info t))) as [mr| |] eqn:Hmr;
    try discriminate.
  apply andb_prop in Hpositive as [Hvalid Hpos].
  exists mr. split; [exact Hmr|]. split; [exact Hpos|].
  assert (Hfin : float_is_finite mr = true)
    by (destruct mr as [| | |[|] ? ?]; try discriminate; reflexivity).
  assert (Hcheck : ∀ value,
            float_gt value mr = false →
            error_on_value_not_representable_in_fixed_point
              element_size_from_data_type function file line value (Some t)
            = Return ()).
  { intros value Hgt.
    rewrite (error_on_value_not_representable_present value t mr Hmr), Hgt.
    reflexivity. }
  split; [|split; [|split; [|split]]].
  - intros value Hle. apply Hcheck. unfold float_gt, SFltb.
    unfold SFleb in Hle. rewrite (SFcompare_antisym value mr).
    destruct (SFcompare value mr) as [[| |]|]; (discriminate || reflexivity).
  - intros value Hv Hf Hle. apply Hcheck. unfold float_gt, SFltb.
    rewrite SFcompare_scaled by assumption.
    destruct (float_scaled mr ?= float_scaled value)%Z eqn:Hc;
      try reflexivity.
    apply Z.compare_lt_iff in Hc.
    apply (SF2Q_lt_scaled mr value Hvalid Hv) in Hc.
    destruct (Qle_not_lt _ _ Hle Hc).
  - apply Hcheck. unfold float_gt, SFltb.
    destruct mr as [| | |s m e]; try discriminate.
    rewrite SFcompare_refl_finite. reflexivity.
  - intros value Hneg. apply Hcheck.
    destruct mr as [| | |[|] m e]; try discriminate.
    destruct value as [|[|]| |[|] m' e']; try discriminate; reflexivity.
  - intros value e Hraise. apply Hcheck.
    rewrite (error_on_value_not_representable_present value t mr Hmr)
      in Hraise.
    destruct (float_gt value mr) eqn:Hgt; [|discriminate].
    destruct mr as [| | |[|] m e']; try discriminate.
    destruct value as [[|]|[|]| |[|] m' e'']; try discriminate; reflexivity.
Qed.

End FixedPointRange.

(** * Part III: the validators at work *)

Lemma float_literals :
  float_7_9 = S754_finite false 16567501 (-21)
  ∧ float_8_0 = S754_finite false 8388608 (-20)
  ∧ (SF2Q float_8_0 == 8)%Q
  ∧ (7.9 < SF2Q float_7_9 < 7.9000001)%Q.
Proof. repeat split. Qed.

Lemma have_different_dimensions_spec_witness :
  have_different_dimensions shape_5x3 shape_2x3 1
  = have_different_dimensions shape_2x3 shape_2x3 1.
Proof.
  apply (proj2 (have_different_dimensions_spec shape_2x3 shape_2x3 1)).
  intros i Hi. unfold MAX_DIMS in Hi.
  do 6 (destruct i as [|i]; [first [lia | split; reflexivity]|]).
  lia.
Defined.

Lemma error_on_mismatching_shapes_spec_witness :
  error_on_mismatching_shapes sample_function sample_file sample_line 1
    (Some tensor_qs8_2x3) (Some tensor_qs8_5x3) []
  = Return ().
Proof.
  apply (proj2 (proj2 (error_on_mismatching_shapes_spec
                         sample_function sample_file sample_line))).
  intros i Hi. unfold MAX_DIMS in Hi.
  do 6 (destruct i as [|i]; [first [lia | reflexivity]|]).
  lia.
Defined.

Lemma have_different_dimensions_empty_range_witness :
  have_different_dimensions shape_2x3 shape_2x4 6 = false
  ∧ error_on_mismatching_shapes sample_function sample_file sample_line 6
      (Some tensor_qs8_2x3) (Some tensor_qs8_2x4) []
    = Return ().
Proof.
  destruct (have_different_dimensions_empty_range
              (num_max_dimensions := MAX_DIMS)
              sample_function sample_file sample_line 6 (le_n 6))
    as [Hdims Hcheck].
  split.
  - apply Hdims.
  - apply (Hcheck tensor_qs8_2x3 tensor_qs8_2x4 []).
Defined.

(** A null operand that comes after an operand of another shape is not
    reported: the shape check fails on the mismatch and never reaches it. The
    data-type check reads the data type of its first operand without any
    test, also when that operand is null. *)
Lemma null_operand_not_reported_first :
  None ∈ [Some tensor_qs8_2x3; Some tensor_qs8_2x4; None]
  ∧ error_on_mismatching_shapes sample_function sample_file sample_line 0
      (Some tensor_qs8_2x3) (Some tensor_qs8_2x4) [None]
    = Raise (mkError sample_function sample_file sample_line
               (Message "Tensors have different shapes"))
  ∧ error_on_mismatching_shapes sample_function sample_file sample_line 0
      (Some tensor_qs8_2x3) (Some tensor_qs8_2x4) [None]
    ≠ Raise (mkError sample_function sample_file sample_line
               (Condition "tensor == nullptr"))
  ∧ error_on_mismatching_data_types sample_function sample_file sample_line
      None (Some tensor_qs8_2x3) []
    = Undefined NullDereference.
Proof.
  split; [|split; [|split]].
  - apply list_elem_of_further, list_elem_of_further, list_elem_of_here.
  - reflexivity.
  - discriminate.
  - reflexivity.
Qed.

Lemma null_operand_reporting_witness :
  error_on_mismatching_shapes sample_function sample_file sample_line 1
    (Some tensor_qs8_2x3) (Some tensor_qs8_5x3) [None; Some tensor_qs8_2x4]
  = Raise (mkError sample_function sample_file sample_line
             (Condition "tensor == nullptr"))
  ∧ error_on_mismatching_shapes sample_function sample_file sample_line 1
      (Some tensor_qs8_2x3) (Some tensor_qs8_5x3) [Some tensor_qs8_2x4; None]
    = Raise (mkError sample_function sample_file sample_line
               (Message "Tensors have different shapes"))
  ∧ mkError sample_function sample_file sample_line
      (Message "Tensors have different data types")
    = mkError sample_function sample_file sample_line
        (Message "Tensors have different data types").
Proof.
  destruct (null_operand_reporting (num_max_dimensions := MAX_DIMS)
              sample_function sample_file sample_line)
    as (_ & Hnull & Hmismatch & _ & Htypes).
  split; [|split].
  - apply (Hnull 1 tensor_qs8_2x3 [tensor_qs8_5x3] [Some tensor_qs8_2x4]).
    + reflexivity.
    + constructor; [reflexivity|constructor].
  - apply (Hmismatch 1 tensor_qs8_2x3 [tensor_qs8_5x3] tensor_qs8_2x4 [None]).
    + reflexivity.
    + constructor; [reflexivity|constructor].
    + reflexivity.
  - apply (Htypes (Some tensor_qs8_2x3) (Some tensor_f32_2x3) []).
    reflexivity.
Defined.

Lemma error_on_mismatching_fixed_point_spec_witness :
  error_on_mismatching_fixed_point sample_function sample_file sample_line
    (Some tensor_f32_2x3) None [None]
  = Return ()
  ∧ ∃ e,
      error_on_mismatching_fixed_point sample_function sample_file sample_line
        (Some tensor_qs8_2x3) (Some tensor_qs8_2x4) [Some tensor_qs8_2x3_q5]
      = Raise e.
Proof.
  destruct (error_on_mismatching_fixed_point_spec
              (num_max_dimensions := MAX_DIMS)
              sample_function sample_file sample_line)
    as [Hskip Hcheck].
  split.
  - apply Hskip; discriminate.
  - apply (proj1 (Hcheck tensor_qs8_2x3 tensor_qs8_2x4 [tensor_qs8_2x3_q5]
                    (or_introl eq_refl))).
    apply Exists_cons_tl, Exists_cons_hd. right. discriminate.
Defined.

Lemma error_on_data_type_not_in_spec_witness :
  error_on_data_type_not_in sample_function sample_file sample_line
    (Some tensor_f32_2x3) DataType.F32 [DataType.QS8]
  = Return ()
  ∧ error_on_data_type_not_in sample_function sample_file sample_line
      (Some tensor_f32_2x3) DataType.U8 [DataType.QS8; DataType.QS16]
    = Raise (mkError sample_function sample_file sample_line
               (Message "ITensor data type %s not supported by this kernel"))
  ∧ error_on_data_type_not_in sample_function sample_file sample_line
      (Some tensor_unknown) DataType.U8 [DataType.QS8]
    = Raise (mkError sample_function sample_file sample_line
               (Condition "tensor_dt == DataType::UNKNOWN")).
Proof.
  split; [|split].
  - apply (error_on_data_type_not_in_spec
             sample_function sample_file sample_line
             tensor_f32_2x3 DataType.F32 [DataType.QS8]);
      [discriminate|reflexivity].
  - apply (error_on_data_type_not_in_spec
             sample_function sample_file sample_line
             tensor_f32_2x3 DataType.U8 [DataType.QS8; DataType.QS16]);
      [discriminate|discriminate|].
    intros Hin. apply list_elem_of_In in Hin. simpl in Hin.
    destruct Hin as [H|[H|[]]]; discriminate.
  - apply (error_on_data_type_not_in_spec
             sample_function sample_file sample_line
             tensor_unknown DataType.U8 [DataType.QS8]).
    reflexivity.
Defined.

Lemma unknown_always_rejected_witness :
  error_on_format_not_in sample_function sample_file sample_line
    (Some tensor_unknown) Format.UNKNOWN [Format.UNKNOWN; Format.U8]
  = Raise (mkError sample_function sample_file sample_line
             (Condition "object_format == Format::UNKNOWN"))
  ∧ error_on_data_type_not_in sample_function sample_file sample_line
      (Some tensor_unknown) DataType.UNKNOWN [DataType.UNKNOWN]
    = Raise (mkError sample_function sample_file sample_line
               (Condition "tensor_dt == DataType::UNKNOWN")).
Proof.
  destruct (unknown_always_rejected (num_max_dimensions := MAX_DIMS)
              sample_function sample_file sample_line)
    as (Hformat & Htype & _).
  split.
  - apply Hformat. reflexivity.
  - apply Htype. reflexivity.
Defined.

Lemma error_on_value_not_representable_in_fixed_point_spec_witness :
  q_max_range element_size_sample (data_type (info tensor_qs8_2x3))
  = Return 127%Z
  ∧ float_exceeds float_8_0 (representable_bound 1 4)
  ∧ error_on_value_not_representable_in_fixed_point element_size_sample
      sample_function sample_file sample_line float_7_9 (Some tensor_qs8_2x3)
    = Return ()
  ∧ error_on_value_not_representable_in_fixed_point element_size_sample
      sample_function sample_file sample_line float_8_0 (Some tensor_qs8_2x3)
    = Raise (mkError sample_function sample_file sample_line
               (Message
                  "Value %f is not representable in %s with fixed-point position %d")).
Proof.
  destruct (error_on_value_not_representable_in_fixed_point_spec
              (num_max_dimensions := MAX_DIMS) element_size_sample
              sample_function sample_file sample_line)
    as (Hgeneral & Hexact & Hsample).
  split; [|split].
  - pose proof (Hgeneral tensor_qs8_2x3 float_7_9
                  ltac:(cbn; lia) ltac:(cbn; lia))
      as (Hq & _).
    exact Hq.
  - pose proof (Hexact tensor_qs8_2x3 float_8_0
                  ltac:(cbn; lia) ltac:(cbn; lia)
                  ltac:(vm_compute; reflexivity))
      as (_ & Hfails & _).
    apply Hfails. reflexivity.
  - exact (proj2 (proj2 (Hsample tensor_qs8_2x3 eq_refl eq_refl))).
Defined.

Lemma error_on_value_not_representable_in_fixed_point_signed_witness :
  error_on_value_not_representable_in_fixed_point element_size_sample
    sample_function sample_file sample_line (SFopp float_8_0)
    (Some tensor_qs8_2x3)
  = Return ().
Proof.
  destruct (error_on_value_not_representable_in_fixed_point_signed
              element_size_sample sample_function sample_file sample_line
              tensor_qs8_2x3 ltac:(cbn; lia) ltac:(cbn; lia))
    as (mr & _ & _ & _ & _ & _ & Hnegative & _).
  apply Hnegative. reflexivity.
Defined.

(** * Part IV: further properties of the validators *)

(** ** Searching for an operand that differs from the first *)

Section DifferFromFirst.

Context {A : Type} (differ : A → A → bool).

Hypothesis differ_refl : ∀ a, differ a a = false.
Hypothesis differ_sym : ∀ a b, differ a b = differ b a.
Hypothesis differ_trans :
  ∀ a b c, differ a b = false → differ b c = false → differ a c = false.

(** No operand differs from the first exactly when no two operands differ. *)
Lemma existsb_differ_pairwise (x : A) (l : list A) :
  existsb (differ x) l = false
  ↔ ∀ a b, a ∈ x :: l → b ∈ x :: l → differ a b = false.
Proof.
  rewrite <- not_true_iff_false, existsb_Exists, Exists_exists. split.
  - intros Hnone.
    assert (Hx : ∀ a, a ∈ x :: l → differ x a = false).
    { intros a Ha. apply elem_of_cons in Ha as [->|Ha]; [apply differ_refl|].
      apply not_true_iff_false. intros Hd. apply Hnone. eauto. }
    intros a b Ha Hb. apply (differ_trans a x b); [|apply Hx, Hb].
    rewrite differ_sym. apply Hx, Ha.
  - intros Hall (a & Ha & Hd).
    rewrite (Hall x a) in Hd; [discriminate|apply list_elem_of_here|].
    apply list_elem_of_further, Ha.
Qed.

(** The search has the same answer for the same operands in another order. *)
Lemma existsb_differ_Permutation (x x' : A) (l l' : list A) :
  x :: l ≡ₚ x' :: l' →
  existsb (differ x) l = existsb (differ x') l'.
Proof.
  intros Hperm.
  destruct (existsb (differ x') l') eqn:Hd'.
  - apply not_false_iff_true. intros Hd. apply not_false_iff_true in Hd'.
    apply Hd'. apply existsb_differ_pairwise. intros a b Ha Hb.
    rewrite <- Hperm in Ha, Hb.
    revert a b Ha Hb. apply existsb_differ_pairwise, Hd.
  - apply existsb_differ_pairwise. intros a b Ha Hb.
    rewrite Hperm in Ha, Hb.
    revert a b Ha Hb. apply existsb_differ_pairwise, Hd'.
Qed.

End DifferFromFirst.

Lemma existsb_bool_decide {A : Type} (P : A → Prop)
    `{∀ x, Decision (P x)} (l : list A) :
  existsb (λ x, bool_decide (P x)) l = true ↔ Exists P l.
Proof.
  rewrite existsb_Exists, !Exists_exists.
  split; intros (x & Hin & Hx); exists x; (split; [exact Hin|]).
  - apply bool_decide_eq_true in Hx. exact Hx.
  - apply bool_decide_eq_true. exact Hx.
Qed.

Lemma existsb_bool_decide_false {A : Type} (P : A → Prop)
    `{∀ x, Decision (P x)} (l : list A) :
  existsb (λ x, bool_decide (P x)) l = false ↔ Forall (λ x, ¬ P x) l.
Proof.
  rewrite <- not_true_iff_false, existsb_bool_decide.
  rewrite Forall_forall, Exists_exists. split.
  - intros Hno x Hin Hx. apply Hno. eauto.
  - intros Hall (x & Hin & Hx). exact (Hall x Hin Hx).
Qed.

(** ** The dimension comparator, further *)

Section DimensionComparatorFurther.

Context {T : Type} `{EqDecision T} `{Inhabited T} {num_max_dimensions : nat}.

Implicit Types dim a b c : Dimensions T num_max_dimensions.

Lemma have_different_dimensions_sym a b upper_dim :
  have_different_dimensions a b upper_dim
  = have_different_dimensions b a upper_dim.
Proof.
  destruct (have_different_dimensions b a upper_dim) eqn:Hd.
  - apply have_different_dimensions_true in Hd as (i & Hi & Hne).
    apply have_different_dimensions_true. exists i. split; [exact Hi|].
    intros Heq. apply Hne. symmetry. exact Heq.
  - apply have_different_dimensions_false. intros i Hi. symmetry.
    revert i Hi. apply have_different_dimensions_false. exact Hd.
Qed.

Lemma have_different_dimensions_false_trans a b c upper_dim :
  have_different_dimensions a b upper_dim = false →
  have_different_dimensions b c upper_dim = false →
  have_different_dimensions a c upper_dim = false.
Proof.
  rewrite !have_different_dimensions_false. intros Hab Hbc i Hi.
  rewrite (Hab i Hi). apply Hbc, Hi.
Qed.

Lemma have_different_dimensions_false_later a b upper_dim upper_dim' :
  upper_dim ≤ upper_dim' →
  have_different_dimensions a b upper_dim = false →
  have_different_dimensions a b upper_dim' = false.
Proof.
  rewrite !have_different_dimensions_false. intros Hle Hsame i Hi.
  apply Hsame. lia.
Qed.

Lemma have_different_dimensions_zero_false a b :
  have_different_dimensions a b 0 = false ↔ _id a = _id b.
Proof.
  rewrite have_different_dimensions_false. unfold at_dim. split.
  - intros Hsame. apply list_eq. intros i.
    destruct (decide (i < num_max_dimensions)) as [Hi|Hi].
    + rewrite !list_lookup_lookup_total_lt
        by (rewrite _id_size; exact Hi).
      f_equal. apply Hsame. lia.
    + rewrite !lookup_ge_None_2 by (rewrite _id_size; lia). reflexivity.
  - intros Heq i _. rewrite Heq. reflexivity.
Qed.

(** Agreement from an axis on is transitive: with the reflexivity and the
    symmetry of the comparator, "no difference from [upper_dim] on" is an
    equivalence on dimension vectors. *)
Theorem have_different_dimensions_trans a b c upper_dim :
  have_different_dimensions a b upper_dim = false →
  have_different_dimensions b c upper_dim = false →
  have_different_dimensions a c upper_dim = false.
Proof.
  intros Hab Hbc. apply have_different_dimensions_false. intros i Hi.
  transitivity (at_dim b i).
  - revert i Hi. apply have_different_dimensions_false. exact Hab.
  - revert i Hi. apply have_different_dimensions_false. exact Hbc.
Qed.

(** From axis 0 the comparator tells whether the two arrays are equal: it
    returns false exactly when they hold the same values. *)
Theorem have_different_dimensions_zero a b :
  have_different_dimensions a b 0 = false ↔ _id a = _id b.
Proof.
  split.
  - intros Hsame. apply list_eq. intros i.
    destruct (decide (i < num_max_dimensions)) as [Hi|Hi].
    + rewrite !list_lookup_lookup_total_lt
        by (rewrite _id_size; exact Hi).
      f_equal.
      apply (proj1 (have_different_dimensions_false a b 0) Hsame). lia.
    + rewrite !lookup_ge_None_2 by (rewrite _id_size; lia). reflexivity.
  - intros Heq. apply have_different_dimensions_false. intros i _.
    unfold at_dim. rewrite Heq. reflexivity.
Qed.

Lemma error_on_mismatching_dimensions_Return
    (function file : string) (line : Z) dim1 dim2
    (dims : list (Dimensions T num_max_dimensions)) :
  error_on_mismatching_dimensions function file line dim1 dim2 dims
  = Return ()
  ↔ Forall (λ dim, have_different_dimensions dim1 dim 0 = false)
      (dim2 :: dims).
Proof.
  unfold error_on_mismatching_dimensions.
  induction (dim2 :: dims) as [|dim l IH]; cbn [for_each].
  - split; [intros _; constructor|reflexivity].
  - rewrite Forall_cons.
    assert (Hhead : compare_dimension dim1 function file line dim
                    = if have_different_dimensions dim1 dim 0
                      then Raise (mkError function file line
                                    (Message "Objects have different dimensions"))
                      else Return ()) by reflexivity.
    rewrite Hhead.
    destruct (have_different_dimensions dim1 dim 0);
      cbn [mbind outcome_bind].
    + split; [discriminate|intros [Hd _]; discriminate].
    + rewrite IH. split; [intros Hl; split; [reflexivity|exact Hl]|].
      intros [_ Hl]. exact Hl.
Qed.

(** [error_on_mismatching_dimensions] returns exactly when every further
    object holds the same array as the first one, and otherwise raises its
    one failure, "Objects have different dimensions". *)
Theorem error_on_mismatching_dimensions_spec
    (function file : string) (line : Z) dim1 dim2
    (dims : list (Dimensions T num_max_dimensions)) :
  (error_on_mismatching_dimensions function file line dim1 dim2 dims
   = Return ()
   ↔ Forall (λ dim, _id dim = _id dim1) (dim2 :: dims))
  ∧ (error_on_mismatching_dimensions function file line dim1 dim2 dims
     = Raise (mkError function file line
                (Message "Objects have different dimensions"))
     ↔ Exists (λ dim, _id dim ≠ _id dim1) (dim2 :: dims)).
Proof.
  unfold error_on_mismatching_dimensions.
  induction (dim2 :: dims) as [|dim l IH]; cbn [for_each].
  - split; [split; [intros _; constructor|reflexivity]|].
    split; [discriminate|]. intros Hex. inversion Hex.
  - rewrite Forall_cons, Exists_cons.
    assert (Hhead : compare_dimension dim1 function file line dim
                    = if have_different_dimensions dim1 dim 0
                      then Raise (mkError function file line
                                    (Message "Objects have different dimensions"))
                      else Return ()) by reflexivity.
    rewrite Hhead.
    destruct (have_different_dimensions dim1 dim 0) eqn:Hd;
      cbn [mbind outcome_bind].
    + assert (Hne : _id dim ≠ _id dim1).
      { intros Heq. apply not_false_iff_true in Hd. apply Hd.
        apply have_different_dimensions_zero_false. symmetry. exact Heq. }
      split; [split; [discriminate|intros [Heq _]; contradiction]|].
      split; [intros _; left; exact Hne|reflexivity].
    + apply have_different_dimensions_zero_false in Hd.
      destruct IH as [IHr IHe]. rewrite IHr, IHe. split.
      * split; [intros Hl; split; [symmetry; exact Hd|exact Hl]|].
        intros [_ Hl]. exact Hl.
      * split; [intros Hl; right; exact Hl|].
        intros [Hq|Hl]; [|exact Hl]. destruct Hq. symmetry. exact Hd.
Qed.

End DimensionComparatorFurther.

(** ** Validators over operand lists, further *)

Section ValidatorsFurther.

Context {num_max_dimensions : nat}.

(** The call site handed to the validator. *)
Variables (function file : string) (line : Z).

Implicit Types t : ITensor num_max_dimensions.
Implicit Types ts : list (ITensor num_max_dimensions).
Implicit Types tensor : option (ITensor num_max_dimensions).
Implicit Types tensors : list (option (ITensor num_max_dimensions)).

(** On operands that are all present, the data-type check is a search for an
    operand whose data type differs from the first one's. *)
Lemma error_on_mismatching_data_types_present t1 t2 ts :
  error_on_mismatching_data_types function file line
    (Some t1) (Some t2) (Some <$> ts)
  = if existsb
         (λ t, bool_decide (data_type (info t) ≠ data_type (info t1)))
         (t2 :: ts)
    then Raise (mkError function file line
                  (Message "Tensors have different data types"))
    else Return ().
Proof.
  unfold error_on_mismatching_data_types. cbn [deref].
  rewrite !bind_Return, any_of_present. cbn [existsb].
  destruct (decide (data_type (info t2) ≠ data_type (info t1))) as [Hd|Hd].
  - rewrite (bool_decide_eq_true_2 _ Hd). reflexivity.
  - rewrite (bool_decide_eq_false_2 _ Hd). cbn [orb].
    rewrite bind_Return. reflexivity.
Qed.

(** On operands that are all present, the position check is a search for an
    operand whose fixed-point position differs from the first one's. *)
Lemma error_on_mismatching_fixed_point_position_present t1 t2 ts :
  error_on_mismatching_fixed_point_position function file line
    (Some t1) (Some t2) (Some <$> ts)
  = if existsb
         (λ t, bool_decide (fixed_point_position (info t)
                            ≠ fixed_point_position (info t1)))
         (t2 :: ts)
    then Raise (mkError function file line
                  (Message "Tensors have different fixed-point positions"))
    else Return ().
Proof.
  unfold error_on_mismatching_fixed_point_position.
  change (Some t2 :: (Some <$> ts)) with (Some <$> (t2 :: ts)).
  rewrite (any_of_fmap_Return Some _
             (λ t, bool_decide (fixed_point_position (info t)
                                ≠ fixed_point_position (info t1))))
    by (intros t _; reflexivity).
  rewrite bind_Return. reflexivity.
Qed.

(** A pack without a null pointer is a pack of present operands. *)
Lemma error_on_nullptr_Return {A : Type} (pointers : list (option A)) :
  error_on_nullptr function file line pointers = Return () →
  ∃ l, pointers = Some <$> l.
Proof.
  rewrite error_on_nullptr_existsb.
  induction pointers as [|[a|] pointers IH]; cbn [existsb is_nullptr orb].
  - intros _. exists []. reflexivity.
  - intros Hrest. destruct (IH Hrest) as [l ->]. exists (a :: l). reflexivity.
  - discriminate.
Qed.

(** The data-type check returns exactly when every operand has the data type
    of the first one, and otherwise raises its one failure, "Tensors have
    different data types". *)
Theorem error_on_mismatching_data_types_spec t1 t2 ts :
  (error_on_mismatching_data_types function file line
     (Some t1) (Some t2) (Some <$> ts)
   = Return ()
   ↔ Forall (λ t, data_type (info t) = data_type (info t1)) (t2 :: ts))
  ∧ (error_on_mismatching_data_types function file line
       (Some t1) (Some t2) (Some <$> ts)
     = Raise (mkError function file line
                (Message "Tensors have different data types"))
     ↔ Exists (λ t, data_type (info t) ≠ data_type (info t1)) (t2 :: ts)).
Proof.
  rewrite error_on_mismatching_data_types_present.
  destruct (existsb _ (t2 :: ts)) eqn:Hex.
  - apply existsb_Exists, Exists_exists in Hex as (t & Hin & Hd).
    apply bool_decide_eq_true in Hd.
    split; [split; [discriminate|]|split; [|reflexivity]].
    + intros Hall. rewrite Forall_forall in Hall.
      destruct Hd. apply Hall, Hin.
    + intros _. apply Exists_exists. eauto.
  - apply not_true_iff_false in Hex.
    rewrite existsb_Exists, Exists_exists in Hex.
    split; [split; [intros _|reflexivity]|split; [discriminate|]].
    + apply Forall_forall. intros t Hin.
      destruct (decide (data_type (info t) = data_type (info t1)))
        as [|Hne]; [assumption|].
      destruct Hex. exists t. split; [exact Hin|].
      apply bool_decide_eq_true. exact Hne.
    + intros Hsome. apply Exists_exists in Hsome as (t & Hin & Hne).
      destruct Hex. exists t. split; [exact Hin|].
      apply bool_decide_eq_true. exact Hne.
Qed.

(** The data-type check stops at the second operand when it already differs
    from the first: the further operands are not read, null pointers
    included. When the second operand agrees, the further operands are read
    in order, and a null pointer that comes before any operand of another
    data type is dereferenced. *)
Theorem error_on_mismatching_data_types_short_circuit t1 t2 :
  (data_type (info t2) ≠ data_type (info t1) →
   ∀ tensors,
     error_on_mismatching_data_types function file line
       (Some t1) (Some t2) tensors
     = Raise (mkError function file line
                (Message "Tensors have different data types")))
  ∧ (data_type (info t2) = data_type (info t1) →
     ∀ ts_before tensors_after,
       Forall (λ t, data_type (info t) = data_type (info t1)) ts_before →
       error_on_mismatching_data_types function file line
         (Some t1) (Some t2) ((Some <$> ts_before) ++ None :: tensors_after)
       = Undefined NullDereference).
Proof.
  split.
  - intros Hd tensors. unfold error_on_mismatching_data_types.
    cbn [deref]. rewrite !bind_Return.
    destruct (decide (data_type (info t2) ≠ data_type (info t1)));
      [reflexivity|contradiction].
  - intros Hsame ts_before tensors_after Hbefore.
    unfold error_on_mismatching_data_types.
    cbn [deref]. rewrite !bind_Return.
    destruct (decide (data_type (info t2) ≠ data_type (info t1)));
      [contradiction|].
    rewrite any_of_stops; [reflexivity| |intros b; discriminate].
    intros t Ht. rewrite Forall_forall in Hbefore. cbn.
    rewrite (bool_decide_eq_false_2 _ (λ Hne, Hne (Hbefore t Ht))).
    reflexivity.
Qed.

(** The verdict of the shape check does not depend on the order of the
    operands: the same present operands in another order, with another one
    in first place, give the same outcome. *)
Theorem error_on_mismatching_shapes_Permutation upper_dim t1 t2 ts t1' t2' ts' :
  t1 :: t2 :: ts ≡ₚ t1' :: t2' :: ts' →
  error_on_mismatching_shapes function file line upper_dim
    (Some t1) (Some t2) (Some <$> ts)
  = error_on_mismatching_shapes function file line upper_dim
      (Some t1') (Some t2') (Some <$> ts').
Proof.
  intros Hperm. rewrite !error_on_mismatching_shapes_present.
  rewrite (existsb_differ_Permutation
             (λ a b, have_different_dimensions
                       (tensor_shape (info a)) (tensor_shape (info b))
                       upper_dim)
             ltac:(intros a; apply have_different_dimensions_false; reflexivity)
             ltac:(intros a b; apply have_different_dimensions_sym)
             ltac:(intros a b c; apply have_different_dimensions_false_trans)
             t1 t1' (t2 :: ts) (t2' :: ts') Hperm).
  reflexivity.
Qed.

(** The verdict of the data-type check does not depend on the order of the
    operands either. *)
Theorem error_on_mismatching_data_types_Permutation t1 t2 ts t1' t2' ts' :
  t1 :: t2 :: ts ≡ₚ t1' :: t2' :: ts' →
  error_on_mismatching_data_types function file line
    (Some t1) (Some t2) (Some <$> ts)
  = error_on_mismatching_data_types function file line
      (Some t1') (Some t2') (Some <$> ts').
Proof.
  intros Hperm. rewrite !error_on_mismatching_data_types_present.
  rewrite (existsb_differ_Permutation
             (λ a b : ITensor num_max_dimensions,
                bool_decide (data_type (info b) ≠ data_type (info a)))
             ltac:(intros a; apply bool_decide_eq_false_2; auto)
             ltac:(intros a b; apply bool_decide_ext; split; auto)
             ltac:(intros a b c Hab Hbc;
                   apply bool_decide_eq_false in Hab, Hbc;
                   apply bool_decide_eq_false_2;
                   intros Hne; apply Hbc; intros Heq; apply Hab;
                   intros Heq'; apply Hne; congruence)
             t1 t1' (t2 :: ts) (t2' :: ts') Hperm).
  reflexivity.
Qed.

(** Ignoring more leading axes never turns a pass into a failure: operands
    that pass the shape check from [upper_dim] pass it from every later
    axis. *)
Theorem error_on_mismatching_shapes_upper_dim_mono
    upper_dim upper_dim' t1 t2 ts :
  upper_dim ≤ upper_dim' →
  error_on_mismatching_shapes function file line upper_dim
    (Some t1) (Some t2) (Some <$> ts)
  = Return () →
  error_on_mismatching_shapes function file line upper_dim'
    (Some t1) (Some t2) (Some <$> ts)
  = Return ().
Proof.
  intros Hle. rewrite !error_on_mismatching_shapes_present.
  destruct (existsb _ (t2 :: ts)) eqn:Hex; [discriminate|]. intros _.
  replace (existsb _ (t2 :: ts)) with false; [reflexivity|].
  symmetry. apply not_true_iff_false.
  rewrite existsb_Exists, Exists_exists. intros (t & Hin & Hd).
  apply not_true_iff_false in Hex. apply Hex.
  apply existsb_Exists, Exists_exists. exists t. split; [exact Hin|].
  apply not_false_iff_true. intros Hsame. apply not_false_iff_true in Hd.
  apply Hd.
  exact (have_different_dimensions_false_later _ _ _ _ Hle Hsame).
Qed.

(** Checking one pack of pointers is checking its first part and then the
    rest. *)
Theorem error_on_nullptr_app {A : Type} (l1 l2 : list (option A)) :
  error_on_nullptr function file line (l1 ++ l2)
  = (error_on_nullptr function file line l1;;
     error_on_nullptr function file line l2).
Proof.
  unfold error_on_nullptr.
  induction l1 as [|[a|] l1 IH]; cbn [app for_each]; [reflexivity| |].
  - cbn. exact IH.
  - reflexivity.
Qed.

(** Once [error_on_nullptr] has let the operands through, the four checks
    over operand lists behave as the language defines: each one returns or
    raises its failure, and none dereferences a null pointer. *)
Theorem error_on_nullptr_guards tensor_1 tensor_2 tensors :
  error_on_nullptr function file line (tensor_1 :: tensor_2 :: tensors)
  = Return () →
  (∀ upper_dim,
     is_defined
       (error_on_mismatching_shapes function file line upper_dim
          tensor_1 tensor_2 tensors))
  ∧ is_defined
      (error_on_mismatching_data_types function file line
         tensor_1 tensor_2 tensors)
  ∧ is_defined
      (error_on_mismatching_fixed_point function file line
         tensor_1 tensor_2 tensors)
  ∧ is_defined
      (error_on_mismatching_fixed_point_position function file line
         tensor_1 tensor_2 tensors).
Proof.
  intros Hnonnull.
  apply error_on_nullptr_Return in Hnonnull as [l Hl].
  destruct l as [|t1 [|t2 ts]]; try discriminate.
  injection Hl as -> -> ->.
  split; [|split; [|split]].
  - intros upper_dim. rewrite error_on_mismatching_shapes_present.
    destruct (existsb _ _); exact I.
  - rewrite error_on_mismatching_data_types_present.
    destruct (existsb _ _); exact I.
  - rewrite error_on_mismatching_fixed_point_present.
    destruct (_ && _); [exact I|].
    destruct (existsb _ _); [exact I|]. destruct (existsb _ _); exact I.
  - rewrite error_on_mismatching_fixed_point_position_present.
    destruct (existsb _ _); exact I.
Qed.


(** The fixed-point check depends on which operand comes first: a plain
    tensor followed by a fixed-point one passes, the same two the other way
    round fail. *)
Theorem error_on_mismatching_fixed_point_not_symmetric t1 t2 :
  data_type (info t1) ≠ DataType.QS8 →
  data_type (info t1) ≠ DataType.QS16 →
  data_type (info t2) = DataType.QS8
  ∨ data_type (info t2) = DataType.QS16 →
  error_on_mismatching_fixed_point function file line
    (Some t1) (Some t2) []
  = Return ()
  ∧ error_on_mismatching_fixed_point function file line
      (Some t2) (Some t1) []
    = Raise (mkError function file line
               (Message "Tensors have different fixed point data types")).
Proof.
  intros H8 H16 Hq.
  change (@nil (option (ITensor num_max_dimensions)))
    with (Some <$> (@nil (ITensor num_max_dimensions))).
  rewrite !error_on_mismatching_fixed_point_present.
  rewrite (bool_decide_eq_true_2 _ H8), (bool_decide_eq_true_2 _ H16).
  split; [reflexivity|].
  replace (bool_decide (data_type (info t2) ≠ DataType.QS8)
           && bool_decide (data_type (info t2) ≠ DataType.QS16))
    with false
    by (destruct Hq as [-> | ->]; reflexivity).
  cbn [existsb].
  rewrite bool_decide_eq_true_2; [reflexivity|].
  destruct Hq as [Hq|Hq]; congruence.
Qed.

(** The position check looks at positions only, whatever the data types: it
    returns exactly when every operand has the fixed-point position of the
    first one, and otherwise raises its one failure. *)
Theorem error_on_mismatching_fixed_point_position_spec t1 t2 ts :
  (error_on_mismatching_fixed_point_position function file line
     (Some t1) (Some t2) (Some <$> ts)
   = Return ()
   ↔ Forall
       (λ t, fixed_point_position (info t) = fixed_point_position (info t1))
       (t2 :: ts))
  ∧ (error_on_mismatching_fixed_point_position function file line
       (Some t1) (Some t2) (Some <$> ts)
     = Raise (mkError function file line
                (Message "Tensors have different fixed-point positions"))
     ↔ Exists
         (λ t, fixed_point_position (info t) ≠ fixed_point_position (info t1))
         (t2 :: ts)).
Proof.
  rewrite error_on_mismatching_fixed_point_position_present.
  destruct (existsb _ (t2 :: ts)) eqn:Hex.
  - apply (existsb_bool_decide
             (λ t, fixed_point_position (info t)
                   ≠ fixed_point_position (info t1))) in Hex.
    split; [split; [discriminate|]|split; [intros _; exact Hex|reflexivity]].
    intros Hall. apply Exists_exists in Hex as (t & Hin & Hne).
    rewrite Forall_forall in Hall. destruct (Hne (Hall t Hin)).
  - apply (existsb_bool_decide_false
             (λ t, fixed_point_position (info t)
                   ≠ fixed_point_position (info t1))) in Hex.
    split; [split; [intros _|reflexivity]|split; [discriminate|]].
    + eapply Forall_impl; [exact Hex|]. intros t Hnn.
      destruct (decide (fixed_point_position (info t)
                        = fixed_point_position (info t1)));
        [assumption|contradiction].
    + intros Hsome. apply Exists_exists in Hsome as (t & Hin & Hne).
      rewrite Forall_forall in Hex. destruct (Hex t Hin Hne).
Qed.

(** With a first operand of a fixed-point kind, operands that pass the
    fixed-point check pass the position check too. *)
Theorem error_on_mismatching_fixed_point_implies_position t1 t2 ts :
  data_type (info t1) = DataType.QS8
  ∨ data_type (info t1) = DataType.QS16 →
  error_on_mismatching_fixed_point function file line
    (Some t1) (Some t2) (Some <$> ts)
  = Return () →
  error_on_mismatching_fixed_point_position function file line
    (Some t1) (Some t2) (Some <$> ts)
  = Return ().
Proof.
  intros Hq. rewrite error_on_mismatching_fixed_point_present,
    error_on_mismatching_fixed_point_position_present.
  replace (bool_decide (data_type (info t1) ≠ DataType.QS8)
           && bool_decide (data_type (info t1) ≠ DataType.QS16))
    with false
    by (destruct Hq as [-> | ->]; reflexivity).
  destruct (existsb
              (λ t, bool_decide (data_type (info t) ≠ data_type (info t1)))
              (t2 :: ts)); [discriminate|].
  destruct (existsb _ (t2 :: ts)); [discriminate|reflexivity].
Qed.

(** The shape check without [upper_dim] accepts present tensors exactly when
    [error_on_mismatching_dimensions] accepts their shapes. *)
Theorem error_on_mismatching_shapes_default_as_dimensions t1 t2 ts :
  error_on_mismatching_shapes_default function file line
    (Some t1) (Some t2) (Some <$> ts)
  = Return ()
  ↔ error_on_mismatching_dimensions function file line
      (tensor_shape (info t1)) (tensor_shape (info t2))
      ((λ t, tensor_shape (info t)) <$> ts)
    = Return ().
Proof.
  unfold error_on_mismatching_shapes_default.
  rewrite error_on_mismatching_shapes_present.
  rewrite error_on_mismatching_dimensions_Return.
  change (tensor_shape (info t2) :: ((λ t, tensor_shape (info t)) <$> ts))
    with ((λ t, tensor_shape (info t)) <$> (t2 :: ts)).
  rewrite Forall_fmap.
  destruct (existsb _ (t2 :: ts)) eqn:Hex.
  - split; [discriminate|]. intros Hall.
    apply existsb_Exists, Exists_exists in Hex as (t & Hin & Hd).
    rewrite Forall_forall in Hall. specialize (Hall t Hin). cbn in Hall.
    congruence.
  - split; [intros _|reflexivity].
    apply Forall_forall. intros t Hin. cbn.
    apply not_true_iff_false. intros Hd.
    apply not_true_iff_false in Hex. apply Hex.
    apply existsb_Exists, Exists_exists. eauto.
Qed.

End ValidatorsFurther.

(** ** Validators of one object against allowed values *)

(** The test "neither the first candidate nor one of the others" is the test
    "not among the candidates". *)
Lemma not_candidate {A : Type} `{EqDecision A} (x c : A) (l : list A) :
  bool_decide (x ≠ c) && none_of (λ y, bool_decide (y = x)) l
  = bool_decide (x ∉ c :: l).
Proof.
  destruct (decide (x ∉ c :: l)) as [Hnot|Hin].
  - rewrite (bool_decide_eq_true_2 _ Hnot).
    apply not_elem_of_cons in Hnot as [Hne Hl].
    rewrite (bool_decide_eq_true_2 _ Hne).
    apply none_of_true in Hl. rewrite Hl. reflexivity.
  - rewrite (bool_decide_eq_false_2 _ Hin).
    destruct (decide (x = c)) as [Heq|Hne].
    + rewrite bool_decide_eq_false_2 by auto. reflexivity.
    + rewrite (bool_decide_eq_true_2 _ Hne). cbn [andb].
      apply not_true_iff_false. rewrite none_of_true. intros Hl.
      apply Hin. apply not_elem_of_cons. split; assumption.
Qed.

Section SingleObjectValidators.

Context {num_max_dimensions : nat}.

(** The call site handed to the validator. *)
Variables (function file : string) (line : Z).

Implicit Types t : ITensor num_max_dimensions.
Implicit Types tensor object : option (ITensor num_max_dimensions).

(** On a present object, the format check is the test for [UNKNOWN] followed
    by the search of the allowed formats. *)
Lemma error_on_format_not_in_present t format0 formats :
  error_on_format_not_in function file line (Some t) format0 formats
  = if bool_decide (format (info t) = Format.UNKNOWN)
    then Raise (mkError function file line
                  (Condition "object_format == Format::UNKNOWN"))
    else if bool_decide (format (info t) ∉ format0 :: formats)
    then Raise (mkError function file line
                  (Message "Format %s not supported by this kernel"))
    else Return ().
Proof.
  unfold error_on_format_not_in.
  cbn [is_nullptr deref ARM_COMPUTE_ERROR_ON_LOC]. rewrite !bind_Return.
  destruct (bool_decide (format (info t) = Format.UNKNOWN)); [reflexivity|].
  cbn [ARM_COMPUTE_ERROR_ON_LOC].
  rewrite bind_Return, not_candidate. reflexivity.
Qed.

Lemma error_on_data_type_not_in_candidates t dt dts :
  error_on_data_type_not_in function file line (Some t) dt dts
  = if bool_decide (data_type (info t) = DataType.UNKNOWN)
    then Raise (mkError function file line
                  (Condition "tensor_dt == DataType::UNKNOWN"))
    else if bool_decide (data_type (info t) ∉ dt :: dts)
    then Raise (mkError function file line
                  (Message "ITensor data type %s not supported by this kernel"))
    else Return ().
Proof.
  rewrite error_on_data_type_not_in_present, not_candidate. reflexivity.
Qed.

Lemma error_on_channel_not_in_candidates cn channel channels :
  error_on_channel_not_in function file line cn channel channels
  = if bool_decide (cn = Channel.UNKNOWN)
    then Raise (mkError function file line
                  (Condition "cn == Channel::UNKNOWN"))
    else if bool_decide (cn ∉ channel :: channels)
    then Raise (mkError function file line
                  (Condition
                     "channel != cn && std::none_of(channels_array.begin(), channels_array.end(), [&](const T & f) { return f == cn; })"))
    else Return ().
Proof.
  unfold error_on_channel_not_in, ARM_COMPUTE_ERROR_ON_LOC.
  destruct (bool_decide (cn = Channel.UNKNOWN)); [reflexivity|].
  rewrite bind_Return.
  replace (bool_decide (channel ≠ cn)) with (bool_decide (cn ≠ channel))
    by (apply bool_decide_ext; split; auto).
  rewrite not_candidate. reflexivity.
Qed.

(** The format check reports a null object as a raw failure without reading
    it. On a present object whose format is not [UNKNOWN] it returns exactly
    when the format is the first candidate or one of the further ones, and
    otherwise raises "Format %s not supported by this kernel". *)
Theorem error_on_format_not_in_spec :
  (∀ format0 formats,
     error_on_format_not_in (num_max_dimensions := num_max_dimensions)
       function file line None format0 formats
     = Raise (mkError function file line (Condition "object == nullptr")))
  ∧ (∀ t format0 formats,
       format (info t) ≠ Format.UNKNOWN →
       (error_on_format_not_in function file line (Some t) format0 formats
        = Return ()
        ↔ format (info t) = format0 ∨ format (info t) ∈ formats)
       ∧ (error_on_format_not_in function file line (Some t) format0 formats
          = Raise (mkError function file line
                     (Message "Format %s not supported by this kernel"))
          ↔ format (info t) ≠ format0 ∧ format (info t) ∉ formats)).
Proof.
  split; [reflexivity|].
  intros t format0 formats Hknown.
  rewrite error_on_format_not_in_present.
  rewrite (bool_decide_eq_false_2 _ Hknown).
  destruct (decide (format (info t) ∉ format0 :: formats)) as [Hnot|Hin].
  - rewrite (bool_decide_eq_true_2 _ Hnot).
    apply not_elem_of_cons in Hnot as [Hne Hl].
    split; [split; [discriminate|intros [?|?]; contradiction]|].
    split; [intros _; split; assumption|reflexivity].
  - rewrite (bool_decide_eq_false_2 _ Hin).
    apply dec_stable in Hin. apply elem_of_cons in Hin.
    split; [split; [intros _; exact Hin|reflexivity]|].
    split; [discriminate|]. intros [Hne Hl]. destruct Hin; contradiction.
Qed.

(** The three checks against allowed values depend on the candidates as a
    set only: which candidate is written first, the order of the others and
    repetitions change nothing. *)
Theorem allowed_values_as_a_set :
  (∀ object format0 formats format0' formats',
     (∀ f, f ∈ format0 :: formats ↔ f ∈ format0' :: formats') →
     error_on_format_not_in function file line object format0 formats
     = error_on_format_not_in function file line object format0' formats')
  ∧ (∀ tensor dt dts dt' dts',
       (∀ d, d ∈ dt :: dts ↔ d ∈ dt' :: dts') →
       error_on_data_type_not_in function file line tensor dt dts
       = error_on_data_type_not_in function file line tensor dt' dts')
  ∧ (∀ cn channel channels channel' channels',
       (∀ c, c ∈ channel :: channels ↔ c ∈ channel' :: channels') →
       error_on_channel_not_in function file line cn channel channels
       = error_on_channel_not_in function file line cn channel' channels').
Proof.
  split; [|split].
  - intros [t|] format0 formats format0' formats' Hset; [|reflexivity].
    rewrite !error_on_format_not_in_present.
    rewrite (bool_decide_ext (format (info t) ∉ format0 :: formats)
               (format (info t) ∉ format0' :: formats'))
      by (rewrite Hset; reflexivity).
    reflexivity.
  - intros [t|] dt dts dt' dts' Hset; [|reflexivity].
    rewrite !error_on_data_type_not_in_candidates.
    rewrite (bool_decide_ext (data_type (info t) ∉ dt :: dts)
               (data_type (info t) ∉ dt' :: dts'))
      by (rewrite Hset; reflexivity).
    reflexivity.
  - intros cn channel channels channel' channels' Hset.
    rewrite !error_on_channel_not_in_candidates.
    rewrite (bool_decide_ext (cn ∉ channel :: channels)
               (cn ∉ channel' :: channels'))
      by (rewrite Hset; reflexivity).
    reflexivity.
Qed.

(** The channel check, for a channel that is not [UNKNOWN], returns exactly
    when the channel is the first candidate or one of the further ones; its
    failures are raw ones, without a message. *)
Theorem error_on_channel_not_in_spec cn channel channels :
  cn ≠ Channel.UNKNOWN →
  (error_on_channel_not_in function file line cn channel channels
   = Return ()
   ↔ cn = channel ∨ cn ∈ channels)
  ∧ (∀ e,
       error_on_channel_not_in function file line cn channel channels
       = Raise e →
       ∃ cond, err_what e = Condition cond).
Proof.
  intros Hknown. rewrite error_on_channel_not_in_candidates.
  rewrite (bool_decide_eq_false_2 _ Hknown).
  destruct (decide (cn ∉ channel :: channels)) as [Hnot|Hin].
  - rewrite (bool_decide_eq_true_2 _ Hnot).
    apply not_elem_of_cons in Hnot as [Hne Hl].
    split; [split; [discriminate|intros [?|?]; contradiction]|].
    intros e [= <-]. eauto.
  - rewrite (bool_decide_eq_false_2 _ Hin).
    apply dec_stable in Hin. apply elem_of_cons in Hin.
    split; [split; [intros _; exact Hin|reflexivity]|].
    intros e He. discriminate.
Qed.

(** The check of data type and channels reports a null tensor as a raw
    failure without reading it. On a present tensor it returns exactly when
    the data-type check returns and the tensor has the required number of
    channels; a failure of the data-type check is the failure reported,
    whatever the channels; and with an allowed data type and another number
    of channels the failure is the one about channels. *)
Theorem error_on_data_type_channel_not_in_spec :
  (∀ num_channels' dt dts,
     error_on_data_type_channel_not_in (num_max_dimensions := num_max_dimensions)
       function file line None num_channels' dt dts
     = Raise (mkError function file line (Condition "tensor == nullptr")))
  ∧ (∀ t num_channels' dt dts,
       (error_on_data_type_channel_not_in function file line
          (Some t) num_channels' dt dts
        = Return ()
        ↔ error_on_data_type_not_in function file line (Some t) dt dts
          = Return ()
          ∧ num_channels (info t) = num_channels')
       ∧ (∀ e,
            error_on_data_type_not_in function file line (Some t) dt dts
            = Raise e →
            error_on_data_type_channel_not_in function file line
              (Some t) num_channels' dt dts
            = Raise e)
       ∧ (error_on_data_type_not_in function file line (Some t) dt dts
          = Return () →
          num_channels (info t) ≠ num_channels' →
          error_on_data_type_channel_not_in function file line
            (Some t) num_channels' dt dts
          = Raise (mkError function file line
                     (Message
                        "Number of channels %d. Required number of channels %d")))).
Proof.
  split; [reflexivity|].
  intros t num_channels' dt dts. unfold error_on_data_type_channel_not_in.
  assert (Hdefined : ∀ u, error_on_data_type_not_in function file line
                            (Some t) dt dts ≠ Undefined u).
  { intros u. rewrite error_on_data_type_not_in_present.
    destruct (bool_decide _); [discriminate|].
    destruct (_ && _); discriminate. }
  destruct (error_on_data_type_not_in function file line (Some t) dt dts)
    as [[]|e|u]; [| |destruct (Hdefined u); reflexivity].
  - rewrite bind_Return. cbn [deref]. rewrite bind_Return.
    unfold ARM_COMPUTE_ERROR_ON_LOC_MSG.
    destruct (decide (num_channels (info t) = num_channels')) as [Heq|Hne].
    + rewrite bool_decide_eq_false_2 by auto.
      split; [split; [intros _; split; [reflexivity|exact Heq]|reflexivity]|].
      split; [intros e He; discriminate|]. intros _ Hne. contradiction.
    + rewrite (bool_decide_eq_true_2 _ Hne).
      split; [split; [discriminate|intros [_ Heq]; contradiction]|].
      split; [intros e He; discriminate|]. intros _ _. reflexivity.
  - cbn. split; [split; [discriminate|intros [He _]; discriminate]|].
    split; [intros e' [= <-]; reflexivity|]. intros He. discriminate.
Qed.

End SingleObjectValidators.

(** ** The fixed-point range validator, further *)

Lemma q_max_range_out_of_range (element_bytes : Z) :
  element_bytes = 0%Z ∨ (5 ≤ element_bytes ≤ 2 ^ 61)%Z →
  q_max_range (λ _, element_bytes) DataType.UNKNOWN
  = Undefined ShiftOutOfRange.
Proof.
  intros He. unfold q_max_range, shift_right_unsigned_int, size_t_wrap,
    sizeof_unsigned_int.
  destruct (decide _) as [Hin|Hout]; [|reflexivity]. exfalso.
  destruct He as [->|He]; [change (0 ≤ 33 < 32)%Z in Hin; lia|].
  change (2 ^ 61)%Z with 2305843009213693952%Z in He.
  change (2 ^ 64)%Z with 18446744073709551616%Z in Hin.
  replace ((4 - element_bytes) mod 18446744073709551616)%Z
    with (18446744073709551616 + 4 - element_bytes)%Z in Hin.
  2:{ apply (Z.mod_unique _ _ (-1)); lia. }
  replace (((18446744073709551616 + 4 - element_bytes) * 8)
           mod 18446744073709551616)%Z
    with (18446744073709551616 + 32 - 8 * element_bytes)%Z in Hin.
  2:{ apply (Z.mod_unique _ _ 7); lia. }
  rewrite Z.mod_small in Hin by lia. lia.
Qed.

(** More fractional bits give a smaller bound. *)
Lemma representable_bound_antitone (element_bytes position position' : Z) :
  (1 ≤ element_bytes)%Z → (0 ≤ position ≤ position')%Z →
  (representable_bound element_bytes position'
   <= representable_bound element_bytes position)%Q.
Proof.
  intros He Hp. unfold representable_bound.
  rewrite Z.shiftl_1_l.
  assert (Hnum : (0 < 2 ^ (8 * element_bytes - 1))%Z)
    by (apply Z.pow_pos_nonneg; lia).
  assert (Hpow : (0 < 2 ^ position ≤ 2 ^ position')%Z).
  { split; [apply Z.pow_pos_nonneg; lia|apply Z.pow_le_mono_r; lia]. }
  destruct (2 ^ position)%Z as [|a|a]; try lia.
  destruct (2 ^ position')%Z as [|a'|a']; try lia.
  unfold Qle, Qdiv, Qmult, Qinv, inject_Z. cbn [Qnum Qden].
  rewrite !Pos.mul_1_l, !Z.mul_1_r. nia.
Qed.

Section FixedPointRangeFurther.

Context {num_max_dimensions : nat}.

Variable element_size_from_data_type : DataType.t → Z.

(** The call site handed to the validator. *)
Variables (function file : string) (line : Z).

Implicit Types t : ITensor num_max_dimensions.

(** A value that is not a number is never rejected, and plus infinity always
    is: the comparison [value > max_range] is false for the one and true for
    the other. *)
Theorem error_on_value_not_representable_nan_infinity t :
  (1 ≤ element_size_from_data_type (data_type (info t)) ≤ 4)%Z →
  (0 ≤ fixed_point_position (info t) ≤ 30)%Z →
  error_on_value_not_representable_in_fixed_point
    element_size_from_data_type function file line S754_nan (Some t)
  = Return ()
  ∧ error_on_value_not_representable_in_fixed_point
      element_size_from_data_type function file line
      (S754_infinity false) (Some t)
    = Raise (mkError function file line
               (Message
                  "Value %f is not representable in %s with fixed-point position %d")).
Proof.
  intros He Hp.
  pose proof (max_range_positive _ _ He Hp) as Hpositive.
  unfold max_range_is_positive in Hpositive.
  destruct (max_range_at (element_size_from_data_type (data_type (info t)))
              (fixed_point_position (info t))) as [mr| |] eqn:Hmr;
    try discriminate.
  apply andb_prop in Hpositive as [_ Hpos].
  rewrite !(error_on_value_not_representable_present
              element_size_from_data_type function file line _ t mr Hmr).
  destruct mr as [| | |[|] m e]; try discriminate.
  split; reflexivity.
Qed.

(** The validator makes no test of its own arguments. A null tensor is
    dereferenced; an element size of zero or of more than four bytes makes
    the right shift, and a fixed-point position below 0 or above 31 makes the
    left shift, one that the language does not define. *)
Theorem error_on_value_not_representable_undefined value :
  error_on_value_not_representable_in_fixed_point
    (num_max_dimensions := num_max_dimensions)
    element_size_from_data_type function file line value None
  = Undefined NullDereference
  ∧ (∀ t,
       element_size_from_data_type (data_type (info t)) = 0%Z
       ∨ (5 ≤ element_size_from_data_type (data_type (info t)) ≤ 2 ^ 61)%Z →
       error_on_value_not_representable_in_fixed_point
         element_size_from_data_type function file line value (Some t)
       = Undefined ShiftOutOfRange)
  ∧ (∀ t,
       (1 ≤ element_size_from_data_type (data_type (info t)) ≤ 4)%Z →
       (fixed_point_position (info t) < 0
        ∨ 32 ≤ fixed_point_position (info t))%Z →
       error_on_value_not_representable_in_fixed_point
         element_size_from_data_type function file line value (Some t)
       = Undefined ShiftOutOfRange).
Proof.
  split; [reflexivity|]. split.
  - intros t He.
    unfold error_on_value_not_representable_in_fixed_point, max_range.
    cbn [deref]. rewrite bind_Return.
    change (q_max_range element_size_from_data_type (data_type (info t)))
      with (q_max_range
              (λ _, element_size_from_data_type (data_type (info t)))
              DataType.UNKNOWN).
    rewrite (q_max_range_out_of_range _ He). reflexivity.
  - intros t He Hp.
    unfold error_on_value_not_representable_in_fixed_point, max_range.
    cbn [deref]. rewrite bind_Return.
    change (q_max_range element_size_from_data_type (data_type (info t)))
      with (q_max_range
              (λ _, element_size_from_data_type (data_type (info t)))
              DataType.UNKNOWN).
    rewrite (q_max_range_value _ He), bind_Return.
    unfold shift_left_one_int.
    destruct (decide _) as [Hin|_]; [lia|reflexivity].
Qed.

(** Raising the fixed-point position can only shrink the range of accepted
    values: for tensors of the same element size below four bytes, a value
    accepted at a position is accepted at every lower position. *)
Theorem error_on_value_not_representable_position_mono t t' value :
  (1 ≤ element_size_from_data_type (data_type (info t)) ≤ 3)%Z →
  element_size_from_data_type (data_type (info t'))
  = element_size_from_data_type (data_type (info t)) →
  (0 ≤ fixed_point_position (info t')
   ≤ fixed_point_position (info t) ≤ 30)%Z →
  float_valid value = true →
  error_on_value_not_representable_in_fixed_point
    element_size_from_data_type function file line value (Some t)
  = Return () →
  error_on_value_not_representable_in_fixed_point
    element_size_from_data_type function file line value (Some t')
  = Return ().
Proof.
  intros He He' Hp Hv.
  destruct (max_range_exact_bound
              (element_size_from_data_type (data_type (info t)))
              (fixed_point_position (info t)))
    as (mr & Hmr & Hvalid & Hpos & Hbound);
    [lia|apply max_range_exact; lia|].
  destruct (max_range_exact_bound
              (element_size_from_data_type (data_type (info t')))
              (fixed_point_position (info t')))
    as (mr' & Hmr' & Hvalid' & Hpos' & Hbound');
    [lia|apply max_range_exact; lia|].
  assert (Hfin : float_is_finite mr = true)
    by (destruct mr as [| | |[|] ? ?]; try discriminate; reflexivity).
  assert (Hfin' : float_is_finite mr' = true)
    by (destruct mr' as [| | |[|] ? ?]; try discriminate; reflexivity).
  rewrite (error_on_value_not_representable_present
             element_size_from_data_type function file line value t mr Hmr).
  rewrite (error_on_value_not_representable_present
             element_size_from_data_type function file line value t' mr' Hmr').
  destruct (float_gt value mr) eqn:Hgt; [discriminate|]. intros _.
  destruct (float_gt value mr') eqn:Hgt'; [|reflexivity]. exfalso.
  apply not_true_iff_false in Hgt. apply Hgt.
  apply (float_gt_exceeds value mr _ Hv Hvalid Hfin Hbound).
  apply (float_gt_exceeds value mr' _ Hv Hvalid' Hfin' Hbound') in Hgt'.
  rewrite He' in Hgt'.
  pose proof (representable_bound_antitone
                (element_size_from_data_type (data_type (info t)))
                (fixed_point_position (info t'))
                (fixed_point_position (info t))
                ltac:(lia) ltac:(lia)) as Hle.
  destruct value as [s|s| |s m e]; cbn [float_exceeds] in *;
    try assumption; eapply Qle_lt_trans; eassumption.
Qed.

End FixedPointRangeFurther.

(** ** The further properties at work *)

Lemma have_different_dimensions_trans_witness :
  have_different_dimensions shape_5x3 shape_5x3 1 = false.
Proof.
  apply (have_different_dimensions_trans shape_5x3 shape_2x3 shape_5x3 1);
    reflexivity.
Defined.

Lemma error_on_mismatching_data_types_short_circuit_witness :
  error_on_mismatching_data_types sample_function sample_file sample_line
    (Some tensor_qs8_2x3) (Some tensor_f32_2x3) [None]
  = Raise (mkError sample_function sample_file sample_line
             (Message "Tensors have different data types"))
  ∧ error_on_mismatching_data_types sample_function sample_file sample_line
      (Some tensor_qs8_2x3) (Some tensor_qs8_2x4)
      [Some tensor_qs8_5x3; None; Some tensor_f32_2x3]
    = Undefined NullDereference.
Proof.
  destruct (error_on_mismatching_data_types_short_circuit
              sample_function sample_file sample_line
              tensor_qs8_2x3 tensor_f32_2x3) as [Hstop _].
  destruct (error_on_mismatching_data_types_short_circuit
              sample_function sample_file sample_line
              tensor_qs8_2x3 tensor_qs8_2x4) as [_ Hread].
  split.
  - apply Hstop. discriminate.
  - apply (Hread eq_refl [tensor_qs8_5x3] [Some tensor_f32_2x3]).
    constructor; [reflexivity|constructor].
Defined.

Lemma error_on_mismatching_shapes_Permutation_witness :
  error_on_mismatching_shapes sample_function sample_file sample_line 0
    (Some tensor_qs8_2x3) (Some tensor_qs8_2x3_q5) [Some tensor_qs8_2x4]
  = error_on_mismatching_shapes sample_function sample_file sample_line 0
      (Some tensor_qs8_2x4) (Some tensor_qs8_2x3) [Some tensor_qs8_2x3_q5].
Proof.
  apply (error_on_mismatching_shapes_Permutation
           sample_function sample_file sample_line 0
           tensor_qs8_2x3 tensor_qs8_2x3_q5 [tensor_qs8_2x4]
           tensor_qs8_2x4 tensor_qs8_2x3 [tensor_qs8_2x3_q5]).
  symmetry. apply Permutation_cons_append with (l := [_; _]).
Defined.

Lemma error_on_mismatching_data_types_Permutation_witness :
  error_on_mismatching_data_types sample_function sample_file sample_line
    (Some tensor_qs8_2x3) (Some tensor_f32_2x3) []
  = error_on_mismatching_data_types sample_function sample_file sample_line
      (Some tensor_f32_2x3) (Some tensor_qs8_2x3) [].
Proof.
  apply (error_on_mismatching_data_types_Permutation
           sample_function sample_file sample_line
           tensor_qs8_2x3 tensor_f32_2x3 [] tensor_f32_2x3 tensor_qs8_2x3 []).
  apply Permutation_swap.
Defined.

Lemma error_on_mismatching_shapes_upper_dim_mono_witness :
  error_on_mismatching_shapes sample_function sample_file sample_line 3
    (Some tensor_qs8_2x3) (Some tensor_qs8_5x3) []
  = Return ().
Proof.
  apply (error_on_mismatching_shapes_upper_dim_mono
           sample_function sample_file sample_line 1 3
           tensor_qs8_2x3 tensor_qs8_5x3 []); [lia|reflexivity].
Defined.

Lemma error_on_nullptr_guards_witness :
  is_defined
    (error_on_mismatching_data_types sample_function sample_file sample_line
       (Some tensor_qs8_2x3) (Some tensor_f32_2x3) [Some tensor_qs8_2x4]).
Proof.
  apply (error_on_nullptr_guards sample_function sample_file sample_line
           (Some tensor_qs8_2x3) (Some tensor_f32_2x3) [Some tensor_qs8_2x4]).
  reflexivity.
Defined.


Lemma error_on_mismatching_fixed_point_not_symmetric_witness :
  error_on_mismatching_fixed_point sample_function sample_file sample_line
    (Some tensor_f32_2x3) (Some tensor_qs8_2x3) []
  = Return ()
  ∧ error_on_mismatching_fixed_point sample_function sample_file sample_line
      (Some tensor_qs8_2x3) (Some tensor_f32_2x3) []
    = Raise (mkError sample_function sample_file sample_line
               (Message "Tensors have different fixed point data types")).
Proof.
  apply (error_on_mismatching_fixed_point_not_symmetric
           sample_function sample_file sample_line
           tensor_f32_2x3 tensor_qs8_2x3);
    [discriminate|discriminate|left; reflexivity].
Defined.

Lemma error_on_mismatching_fixed_point_implies_position_witness :
  error_on_mismatching_fixed_point_position
    sample_function sample_file sample_line
    (Some tensor_qs8_2x3) (Some tensor_qs8_2x4) [Some tensor_qs8_5x3]
  = Return ().
Proof.
  apply (error_on_mismatching_fixed_point_implies_position
           sample_function sample_file sample_line
           tensor_qs8_2x3 tensor_qs8_2x4 [tensor_qs8_5x3]);
    [left; reflexivity|reflexivity].
Defined.

Lemma error_on_format_not_in_spec_witness :
  error_on_format_not_in sample_function sample_file sample_line
    (Some tensor_f32_2x3) Format.U8 [Format.S16; Format.F32]
  = Return ().
Proof.
  apply (proj2 (error_on_format_not_in_spec (num_max_dimensions := MAX_DIMS)
                  sample_function sample_file sample_line)
           tensor_f32_2x3 Format.U8 [Format.S16; Format.F32]);
    [discriminate|].
  right. apply list_elem_of_further, list_elem_of_here.
Defined.

Lemma allowed_values_as_a_set_witness :
  error_on_data_type_not_in sample_function sample_file sample_line
    (Some tensor_f32_2x3) DataType.U8 [DataType.F32; DataType.U8]
  = error_on_data_type_not_in sample_function sample_file sample_line
      (Some tensor_f32_2x3) DataType.F32 [DataType.U8].
Proof.
  apply (allowed_values_as_a_set (num_max_dimensions := MAX_DIMS)
           sample_function sample_file sample_line).
  intros d. rewrite !elem_of_cons, !elem_of_nil. tauto.
Defined.

Lemma error_on_channel_not_in_spec_witness :
  error_on_channel_not_in sample_function sample_file sample_line
    Channel.G Channel.R [Channel.G; Channel.B]
  = Return ().
Proof.
  apply (error_on_channel_not_in_spec sample_function sample_file sample_line
           Channel.G Channel.R [Channel.G; Channel.B]);
    [discriminate|].
  right. apply list_elem_of_here.
Defined.

Lemma error_on_data_type_channel_not_in_spec_witness :
  error_on_data_type_channel_not_in sample_function sample_file sample_line
    (Some tensor_f32_2x3) 3 DataType.F32 []
  = Raise (mkError sample_function sample_file sample_line
             (Message "Number of channels %d. Required number of channels %d"))
  ∧ error_on_data_type_channel_not_in sample_function sample_file sample_line
      (Some tensor_f32_2x3) 3 DataType.U8 []
    = Raise (mkError sample_function sample_file sample_line
               (Message "ITensor data type %s not supported by this kernel")).
Proof.
  destruct (proj2 (error_on_data_type_channel_not_in_spec
                     (num_max_dimensions := MAX_DIMS)
                     sample_function sample_file sample_line)
              tensor_f32_2x3 3%N DataType.F32 [])
    as (_ & _ & Hchannels).
  destruct (proj2 (error_on_data_type_channel_not_in_spec
                     (num_max_dimensions := MAX_DIMS)
                     sample_function sample_file sample_line)
              tensor_f32_2x3 3%N DataType.U8 [])
    as (_ & Htype & _).
  split.
  - apply Hchannels; [reflexivity|discriminate].
  - apply Htype. reflexivity.
Defined.

Lemma error_on_value_not_representable_nan_infinity_witness :
  error_on_value_not_representable_in_fixed_point element_size_sample
    sample_function sample_file sample_line S754_nan (Some tensor_qs8_2x3)
  = Return ().
Proof.
  apply (error_on_value_not_representable_nan_infinity element_size_sample
           sample_function sample_file sample_line tensor_qs8_2x3);
    cbn; lia.
Defined.

Lemma error_on_value_not_representable_undefined_witness :
  error_on_value_not_representable_in_fixed_point element_size_sample
    sample_function sample_file sample_line float_3_0 (Some tensor_unknown)
  = Undefined ShiftOutOfRange
  ∧ error_on_value_not_representable_in_fixed_point element_size_sample
      sample_function sample_file sample_line float_3_0
      (Some tensor_qs8_2x3_q32)
    = Undefined ShiftOutOfRange.
Proof.
  destruct (error_on_value_not_representable_undefined
              (num_max_dimensions := MAX_DIMS) element_size_sample
              sample_function sample_file sample_line float_3_0)
    as (_ & Hsize & Hposition).
  split.
  - apply Hsize. left. reflexivity.
  - apply Hposition; cbn; lia.
Defined.

Lemma error_on_value_not_representable_position_mono_witness :
  error_on_value_not_representable_in_fixed_point element_size_sample
    sample_function sample_file sample_line float_3_0 (Some tensor_qs8_2x3)
  = Return ().
Proof.
  apply (error_on_value_not_representable_position_mono element_size_sample
           sample_function sample_file sample_line
           tensor_qs8_2x3_q5 tensor_qs8_2x3 float_3_0);
    [cbn; lia|reflexivity|cbn; lia|vm_compute; reflexivity|reflexivity].
Defined.
